(** * mp3_cut.py: time-notation parsing, configuration validation and the
      per-segment batch loop

    A shallow embedding of [src/mp3_cut.py].  The Python functions
    [parse_time_to_seconds], [load_config], [get_ffmpeg_executable],
    [cut_segment], [process_segments] and [main] are transcribed as Rocq
    functions of the same names.

    Conventions of the embedding:
    - a Python [str] is a [string]; each [ascii] is read as the code
      point of the same number (0..255);
    - a Python [float] is a binary64 value, a [spec_float] with
      precision 53 and maximal exponent 1024; a Python [int] is a [Z];
    - the value loaded from the JSON document is a [json] tree;
    - exceptions are explicit outcomes; console output and the calls
      made to [subprocess.run] are threaded as a [state];
    - everything outside the program (files, the FFmpeg locator, the
      external binary) is a field of a [world] record.

    Limits of the embedding: strings hold code points below 256 only,
    and the console encodes all of them; what the console may fail to
    encode are the two marks U+2713 and U+2717 the program prints, and
    then [print] raises [UnicodeEncodeError]; calls into the outside
    world raise subclasses of [Exception] only (an interrupt from the
    keyboard is not part of it); [repr] of floats and containers is a
    setting of the interpreter the statements are generic in. *)

From Stdlib Require Import ZArith List Bool Ascii String Lia.
From Stdlib Require Import Numbers.DecimalString Numbers.DecimalPos.
From Stdlib Require Import Floats.SpecFloat.
Import ListNotations.

Local Open Scope string_scope.
Local Open Scope list_scope.
Local Open Scope nat_scope.

(** ** Text: the [str] methods the program calls *)

Module Text.

(** [str.isspace] on one code point below 256: the characters
    [str.strip()] removes. *)
Definition is_space (c : ascii) : bool :=
  let n := nat_of_ascii c in
  ((9 <=? n) && (n <=? 13)) || ((28 <=? n) && (n <=? 32))
  || (n =? 133) || (n =? 160).

(** The characters [int()] and [float()] skip around a number: those
    of [str.isspace] but the four separators 28 to 31. *)
Definition is_number_space (c : ascii) : bool :=
  let n := nat_of_ascii c in
  ((9 <=? n) && (n <=? 13)) || (n =? 32) || (n =? 133) || (n =? 160).

Definition is_digit (c : ascii) : bool :=
  let n := nat_of_ascii c in (48 <=? n) && (n <=? 57).

Definition digit_value (c : ascii) : Z := (Z.of_nat (nat_of_ascii c) - 48)%Z.

Definition to_lower (c : ascii) : ascii :=
  let n := nat_of_ascii c in
  if (65 <=? n) && (n <=? 90) then ascii_of_nat (n + 32) else c.

Section Strip.
Variable blank : ascii -> bool.

Fixpoint lstrip_by (l : list ascii) : list ascii :=
  match l with
  | c :: r => if blank c then lstrip_by r else l
  | [] => []
  end.

Definition rstrip_by (l : list ascii) : list ascii :=
  rev (lstrip_by (rev l)).

Definition strip_by (l : list ascii) : list ascii :=
  rstrip_by (lstrip_by l).
End Strip.

(** [s.strip()] *)
Definition strip (l : list ascii) : list ascii := strip_by is_space l.

(** The text [int()] and [float()] read once the blanks around it are
    skipped. *)
Definition number_strip (l : list ascii) : list ascii :=
  strip_by is_number_space l.

(** [s.split(sep)] for a one-character separator: never empty. *)
Fixpoint split (sep : ascii) (l : list ascii) : list (list ascii) :=
  match l with
  | [] => [[]]
  | c :: r =>
      if Ascii.eqb c sep then [] :: split sep r
      else match split sep r with
           | h :: t => (c :: h) :: t
           | [] => [[c]]
           end
  end.

Fixpoint is_prefix (p l : list ascii) : bool :=
  match p, l with
  | [], _ => true
  | a :: p', b :: l' => Ascii.eqb a b && is_prefix p' l'
  | _ :: _, [] => false
  end.

(** [p in s] for two strings: substring test. *)
Fixpoint is_substring (p l : list ascii) : bool :=
  is_prefix p l ||
  match l with
  | [] => false
  | _ :: l' => is_substring p l'
  end.

Definition chars (s : string) : list ascii := list_ascii_of_string s.
Definition text (l : list ascii) : string := string_of_list_ascii l.

Fixpoint list_eqb (a b : list ascii) : bool :=
  match a, b with
  | [], [] => true
  | x :: a', y :: b' => Ascii.eqb x y && list_eqb a' b'
  | _, _ => false
  end.

(** ASCII case-insensitive comparison with a lower-case pattern. *)
Definition ci_eqb (l : list ascii) (pattern : string) : bool :=
  list_eqb (map to_lower l) (chars pattern).

Fixpoint repeat_string (c : ascii) (n : nat) : string :=
  match n with
  | O => EmptyString
  | S k => String c (repeat_string c k)
  end.

End Text.

(** ** Numbers: [int(str)], [float(str)], [int + float], [>=] *)

Module Num.
Import Text.

Definition prec : Z := 53.
Definition emax : Z := 1024.
Definition float := spec_float.

Fixpoint span_digits (l : list ascii) : list ascii * list ascii :=
  match l with
  | c :: r =>
      if is_digit c then let '(d, rest) := span_digits r in (c :: d, rest)
      else ([], l)
  | [] => ([], [])
  end.

Definition digits_value (l : list ascii) : Z :=
  fold_left (fun acc c => (10 * acc + digit_value c)%Z) l 0%Z.

(** Digit grouping: an underscore is accepted only between two
    digits; the accepted underscores are dropped. *)
Fixpoint strip_underscores (prev_digit : bool) (l : list ascii)
  : option (list ascii) :=
  match l with
  | [] => Some []
  | c :: r =>
      if Ascii.eqb c "_"%char then
        match r with
        | d :: _ =>
            if prev_digit && is_digit d then strip_underscores false r
            else None
        | [] => None
        end
      else
        match strip_underscores (is_digit c) r with
        | Some r' => Some (c :: r')
        | None => None
        end
  end.

Definition parse_sign (l : list ascii) : bool * list ascii :=
  match l with
  | c :: r =>
      if Ascii.eqb c "-"%char then (true, r)
      else if Ascii.eqb c "+"%char then (false, r)
      else (false, l)
  | [] => (false, [])
  end.

Section IntOfStr.
(** [sys.get_int_max_str_digits()]: 0 disables the limit; CPython's
    default is 4300 and the limit is never applied to 640 digits or
    fewer. *)
Variable int_max_str_digits : nat.

Definition too_many_digits (digits : nat) : bool :=
  (640 <? digits) && (0 <? int_max_str_digits)
  && (int_max_str_digits <? digits).

(** [int(s)] for a [str]: [None] stands for [ValueError]. *)
Definition py_int (s : list ascii) : option Z :=
  let '(neg, body) := parse_sign (number_strip s) in
  match strip_underscores false body with
  | Some ds =>
      if forallb is_digit ds && negb (Nat.eqb (List.length ds) 0)
         && negb (too_many_digits (List.length ds))
      then Some (if neg then - digits_value ds else digits_value ds)%Z
      else None
  | None => None
  end.
End IntOfStr.

(** The binary64 value nearest to [(-1)^neg * d * 10^e] (ties to even;
    beyond the largest finite value the result is an infinity). *)
Definition float_of_decimal (neg : bool) (d e : Z) : float :=
  match d with
  | Zpos m =>
      if (0 <=? e)%Z
      then binary_round prec emax neg (m * Z.to_pos (10 ^ e)) 0
      else SFdiv prec emax (S754_finite neg m 0)
                           (S754_finite false (Z.to_pos (10 ^ (- e))) 0)
  | _ => S754_zero neg
  end.

(** The exponent part: empty, or [e] or [E], an optional sign and at
    least one digit, up to the end of the text. *)
Definition parse_exponent (l : list ascii) : option Z :=
  match l with
  | [] => Some 0%Z
  | c :: r =>
      if Ascii.eqb (to_lower c) "e"%char then
        let '(neg, ds) := parse_sign r in
        if forallb is_digit ds && negb (Nat.eqb (List.length ds) 0)
        then Some (if neg then - digits_value ds else digits_value ds)%Z
        else None
      else None
  end.

(** A decimal literal without sign: digits, an optional point and
    digits, at least one digit in all, an optional exponent.  The result
    is the digit string read as an integer and the power of ten. *)
Definition parse_decimal (l : list ascii) : option (Z * Z) :=
  let '(ip, r1) := span_digits l in
  let '(fp, r2) :=
    match r1 with
    | c :: r => if Ascii.eqb c "."%char then span_digits r else ([], r1)
    | [] => ([], [])
    end in
  if Nat.eqb (List.length (ip ++ fp)) 0 then None
  else match parse_exponent r2 with
       | Some e => Some (digits_value (ip ++ fp), (e - Z.of_nat (List.length fp))%Z)
       | None => None
       end.

(** A number text without the blanks around it: digit grouping, a
    sign, then a decimal literal or one of [inf], [infinity], [nan] in
    any case. *)
Definition float_of_text (t : list ascii) : option float :=
  match strip_underscores false t with
  | None => None
  | Some u =>
      let '(neg, body) := parse_sign u in
      match parse_decimal body with
      | Some (d, e) => Some (float_of_decimal neg d e)
      | None =>
          if ci_eqb body "inf" || ci_eqb body "infinity"
          then Some (S754_infinity neg)
          else if ci_eqb body "nan" then Some S754_nan
          else None
      end
  end.

(** [float(s)] for a [str]: [None] stands for [ValueError]. *)
Definition py_float (s : list ascii) : option float :=
  float_of_text (number_strip s).

(** Conversion of an [int] operand to [float]: [None] stands for
    [OverflowError] (int too large to convert to float). *)
Definition float_of_int (n : Z) : option float :=
  match binary_normalize prec emax n 0 false with
  | S754_infinity _ => None
  | f => Some f
  end.

(** [n + x] for an [int] [n] and a [float] [x]. *)
Definition int_add_float (n : Z) (x : float) : option float :=
  match float_of_int n with
  | Some f => Some (SFadd prec emax f x)
  | None => None
  end.

(** [a >= b] on floats: false as soon as one side is a NaN. *)
Definition float_ge (a b : float) : bool := SFleb b a.


(** The float written [n.0]. *)
Definition float_lit (n : Z) : float := binary_normalize prec emax n 0 false.

End Num.

(** ** Values, exceptions and the outside world *)

Module Py.
Import Text Num.

(** The value [json.load] returns.  An object is the list of its
    bindings, one per key, in document order. *)
#[warnings="-register-all"]
Inductive json : Type :=
| JNull
| JBool (b : bool)
| JInt (n : Z)
| JFloat (f : float)
| JStr (s : string)
| JList (l : list json)
| JDict (d : list (string * json)).

(** The exception classes that appear in the program, in the
    interpreter operations it uses and in its handlers. *)
Inductive exc_class : Type :=
| ValueError | JSONDecodeError | UnicodeDecodeError | UnicodeEncodeError
| TypeError | KeyError | OverflowError
| OSError | FileNotFoundError | PermissionError
| ImportError | ModuleNotFoundError
| RuntimeError
| OtherException (name : string).

Definition class_eqb (c d : exc_class) : bool :=
  match c, d with
  | ValueError, ValueError | JSONDecodeError, JSONDecodeError
  | UnicodeDecodeError, UnicodeDecodeError
  | UnicodeEncodeError, UnicodeEncodeError | TypeError, TypeError
  | KeyError, KeyError | OverflowError, OverflowError | OSError, OSError
  | FileNotFoundError, FileNotFoundError
  | PermissionError, PermissionError | ImportError, ImportError
  | ModuleNotFoundError, ModuleNotFoundError
  | RuntimeError, RuntimeError => true
  | OtherException a, OtherException b => String.eqb a b
  | _, _ => false
  end.

(** [issubclass(c, d)] among the listed classes. *)
Definition subclass (c d : exc_class) : bool :=
  class_eqb c d ||
  match c, d with
  | JSONDecodeError, ValueError | UnicodeDecodeError, ValueError
  | UnicodeEncodeError, ValueError
  | FileNotFoundError, OSError | PermissionError, OSError
  | ModuleNotFoundError, ImportError => true
  | _, _ => false
  end.

(** An instance of a subclass of [Exception]: its class and [str(e)]. *)
Record exception : Type := Exn { exc_cls : exc_class; exc_msg : string }.

Definition isinstance (e : exception) (c : exc_class) : bool :=
  subclass (exc_cls e) c.

(** What a [raise] can carry: an [Exception], which [except Exception]
    catches, or the [SystemExit] of [sys.exit], which it does not. *)
Inductive raised : Type :=
| Exc (e : exception)
| SystemExit (code : Z).

Inductive outcome (A : Type) : Type :=
| Return (a : A)
| Raise (r : raised).
Arguments Return {A} a.
Arguments Raise {A} r.

Definition obind {A B} (c : outcome A) (k : A -> outcome B) : outcome B :=
  match c with
  | Return a => k a
  | Raise r => Raise r
  end.

Definition throw {A} (c : exc_class) (msg : string) : outcome A :=
  Raise (Exc (Exn c msg)).

(** A call into the world: it raises an [Exception] or returns. *)
Definition called {A} (r : exception + A) : outcome A :=
  match r with
  | inl e => Raise (Exc e)
  | inr a => Return a
  end.

(** [try: body / except cls: handler], without state. *)
Definition try_except_pure {A} (body : outcome A) (c : exc_class)
    (handler : exception -> outcome A) : outcome A :=
  match body with
  | Raise (Exc e) => if isinstance e c then handler e else body
  | _ => body
  end.

(** How [subprocess.run] is asked to treat a standard stream. *)
Inductive stream : Type := PIPE | Inherited.

(** One call of [subprocess.run]. *)
Record invocation : Type := Invocation {
  inv_args : list json;
  inv_stdout : stream;
  inv_stderr : stream;
  inv_text : bool
}.

(** The [CompletedProcess] of a call that ran to its end. *)
Record completed : Type := Completed {
  returncode : Z;
  stdout : string;
  stderr : string
}.

Inductive run_result : Type :=
| Ran (r : completed)
| Failed (e : exception).

(** One [print] of the program, with the values it formats. *)
Inductive line : Type :=
| PProcessing (output : json) (start end_ : float)
| PCutFailed (output : json)
| PCutStderr (err : string)
| PCutCreated (output : json)
| PCutException (e : exception)
| PSourceNotFound (source : json)
| PSource (source : json)
| PTotal (n : nat)
| PIndex (i total : nat)
| PInvalidRange (start end_ : float)
| PTimeParseError (e : exception)
| PUnexpected (e : exception)
| PBlank
| PRule
| PCompleted (succeeded failed : nat)
| PUsage
| PLoading
| PGetting
| PFFmpeg (exe : string)
| PError (e : exception)
| PErrorJSON (e : exception)
| PErrorUnexpected (e : exception).

(** The lines whose text holds one of the marks U+2713 and U+2717. *)
Definition has_mark (l : line) : bool :=
  match l with
  | PCutFailed _ | PCutCreated _ | PCutException _
  | PInvalidRange _ _ | PTimeParseError _ | PUnexpected _ => true
  | _ => false
  end.

(** The observable effects of a run, oldest first. *)
Record state : Type := State {
  console : list line;
  calls : list invocation
}.

Definition initial : state := State [] [].

(** The interpreter settings the program's results depend on. *)
Record runtime : Type := Runtime {
  int_max_str_digits : nat;      (* [sys.get_int_max_str_digits()] *)
  repr : json -> string          (* [repr(v)] *)
}.

(** Everything outside the program. *)
Record world : Type := World {
  argv : list string;                        (* [sys.argv] *)
  path_exists : string -> bool;              (* [Path(p).exists()] *)
  open_json : string -> exception + json;    (* [open] and [json.load]:
                                                what they raise, or the
                                                document *)
  imageio_ffmpeg : option (exception + string);
    (* [None]: [import imageio_ffmpeg] fails; else what
       [get_ffmpeg_exe()] raises or returns *)
  subprocess_run : list invocation -> invocation -> run_result;
    (* the result of a call, given the calls made before it *)
  stdout_marks : option (line -> string)
    (* [None]: [sys.stdout] encodes the two marks; else the text of the
       [UnicodeEncodeError] that printing a line with a mark raises *)
}.

(** Computations with effects: a state transformer with an outcome. *)
Definition M (A : Type) : Type := state -> outcome A * state.

Definition ret {A} (a : A) : M A := fun s => (Return a, s).

Definition bind {A B} (c : M A) (k : A -> M B) : M B :=
  fun s => match c s with
           | (Return a, s') => k a s'
           | (Raise r, s') => (Raise r, s')
           end.

Definition lift {A} (c : outcome A) : M A := fun s => (c, s).

(** The exception [print] raises on the line [l], if it raises. *)
Definition unprintable (W : world) (l : line) : option exception :=
  if has_mark l then
    match stdout_marks W with
    | Some message => Some (Exn UnicodeEncodeError (message l))
    | None => None
    end
  else None.

(** [print(...)] of one line: nothing is written when it raises. *)
Definition print (W : world) (l : line) : M unit :=
  fun s =>
    match unprintable W l with
    | Some e => (Raise (Exc e), s)
    | None => (Return tt, State (console s ++ [l]) (calls s))
    end.

(** [sys.exit(code)] *)
Definition sys_exit {A} (code : Z) : M A :=
  fun s => (Raise (SystemExit code), s).

(** [try: body / except ...: ...]: [handlers e] is the body of the first
    clause that matches [e], if one does. *)
Definition try_except {A} (body : M A)
    (handlers : exception -> option (M A)) : M A :=
  fun s => match body s with
           | (Raise (Exc e), s') =>
               match handlers e with
               | Some h => h s'
               | None => (Raise (Exc e), s')
               end
           | r => r
           end.

End Py.

Declare Scope py_scope.
Delimit Scope py_scope with py.
Notation "x <- c ;; k" := (Py.bind c (fun x => k))
  (at level 61, c at next level, right associativity) : py_scope.
Notation "c ;; k" := (Py.bind c (fun _ => k))
  (at level 61, right associativity) : py_scope.
Notation "x <~ c ;; k" := (Py.obind c (fun x => k))
  (at level 61, c at next level, right associativity) : py_scope.

(** ** The program *)

Module Mp3Cut.
Import Text Num Py.
Local Open Scope py_scope.

Definition nat_str (n : nat) : string :=
  NilEmpty.string_of_uint (Nat.to_uint n).

Definition int_str (n : Z) : string :=
  NilEmpty.string_of_int (Z.to_int n).

(** [type(v).__name__] *)
Definition type_name (v : json) : string :=
  match v with
  | JNull => "NoneType"
  | JBool _ => "bool"
  | JInt _ => "int"
  | JFloat _ => "float"
  | JStr _ => "str"
  | JList _ => "list"
  | JDict _ => "dict"
  end.

(** [key in container] for a [str] key.  The texts of the messages of
    exceptions raised by the interpreter are those of CPython 3.12; no
    statement below depends on them. *)
Definition py_contains (key : string) (container : json) : outcome bool :=
  match container with
  | JDict d => Return (existsb (fun kv => String.eqb (fst kv) key) d)
  | JList l =>
      Return (existsb (fun v => match v with
                                | JStr s => String.eqb s key
                                | _ => false
                                end) l)
  | JStr s => Return (is_substring (chars key) (chars s))
  | v => throw TypeError
           ("argument of type '" ++ type_name v ++ "' is not iterable")
  end.

(** [isinstance(v, list)] *)
Definition is_list (v : json) : bool :=
  match v with
  | JList _ => true
  | _ => false
  end.

(** [len(v)] *)
Definition py_len (v : json) : outcome nat :=
  match v with
  | JList l => Return (List.length l)
  | JDict d => Return (List.length d)
  | JStr s => Return (String.length s)
  | v => throw TypeError
           ("object of type '" ++ type_name v ++ "' has no len()")
  end.

(** The items a [for] loop over [v] visits. *)
Definition py_iter (v : json) : outcome (list json) :=
  match v with
  | JList l => Return l
  | JDict d => Return (map (fun kv => JStr (fst kv)) d)
  | JStr s => Return (map (fun c => JStr (String c EmptyString)) (chars s))
  | v => throw TypeError ("'" ++ type_name v ++ "' object is not iterable")
  end.

(** The number of digits [str(n)] writes. *)
Definition decimal_digits (n : Z) : nat :=
  String.length (int_str (Z.abs n)).

Section Program.
Variable rt : runtime.

(** The text [str(v)] writes. *)
Definition py_str (v : json) : string :=
  match v with
  | JStr s => s
  | JInt n => int_str n
  | JBool true => "True"
  | JBool false => "False"
  | JNull => "None"
  | v => repr rt v
  end.

(** [str(v)]: an [int] of more digits than the limit is refused. *)
Definition str_of (v : json) : outcome string :=
  match v with
  | JInt n =>
      if too_many_digits (int_max_str_digits rt) (decimal_digits n) then
        throw ValueError
          ("Exceeds the limit (" ++ nat_str (int_max_str_digits rt)
           ++ " digits) for integer string conversion; "
           ++ "use sys.set_int_max_str_digits() to increase the limit")
      else Return (py_str v)
  | v => Return (py_str v)
  end.

(** [container[key]] for a [str] key. *)
Definition py_getitem (container : json) (key : string) : outcome json :=
  match container with
  | JDict d =>
      match find (fun kv => String.eqb (fst kv) key) d with
      | Some kv => Return (snd kv)
      | None => throw KeyError (repr rt (JStr key))
      end
  | JStr _ => throw TypeError "string indices must be integers, not 'str'"
  | JList _ =>
      throw TypeError "list indices must be integers or slices, not str"
  | v => throw TypeError
           ("'" ++ type_name v ++ "' object is not subscriptable")
  end.

(** [int(s)] and [float(s)] with their [ValueError]. *)
Definition int_of_str (s : list ascii) : outcome Z :=
  match py_int (int_max_str_digits rt) s with
  | Some n => Return n
  | None =>
      throw ValueError ("invalid literal for int() with base 10: "
                        ++ repr rt (JStr (text s)))
  end.

Definition float_of_str (s : list ascii) : outcome float :=
  match py_float s with
  | Some f => Return f
  | None =>
      throw ValueError ("could not convert string to float: "
                        ++ repr rt (JStr (text s)))
  end.

(** [n + x], [n] an [int] and [x] a [float]. *)
Definition add_int_float (n : Z) (x : float) : outcome float :=
  match int_add_float n x with
  | Some f => Return f
  | None => throw OverflowError "int too large to convert to float"
  end.

(** [parse_time_to_seconds(time_str)] *)
Definition parse_time_to_seconds (time_str : json) : outcome float :=
  written <~ str_of time_str;;
  let time_str := strip (chars written) in
  let invalid (_ : exception) : outcome float :=
    throw ValueError ("Invalid time format: " ++ text time_str) in
  match float_of_str time_str with
  | Return f => Return f
  | Raise (Exc e) =>
      if isinstance e ValueError then
        let parts := split ":"%char time_str in
        match parts with
        | [p0; p1] =>
            try_except_pure
              (minutes <~ int_of_str p0;;
               seconds <~ float_of_str p1;;
               add_int_float (minutes * 60) seconds)
              ValueError invalid
        | [p0; p1; p2] =>
            try_except_pure
              (hours <~ int_of_str p0;;
               minutes <~ int_of_str p1;;
               seconds <~ float_of_str p2;;
               add_int_float (hours * 3600 + minutes * 60) seconds)
              ValueError invalid
        | _ => invalid e
        end
      else Raise (Exc e)
  | Raise r => Raise r
  end.

Variable W : world.

(** The [for] loop of [load_config], from index [i] on. *)
Fixpoint check_segments (i : nat) (segments : list json) : outcome unit :=
  match segments with
  | [] => Return tt
  | segment :: rest =>
      has_start <~ py_contains "start" segment;;
      if negb has_start then
        throw ValueError ("Segment " ++ nat_str i ++ ": Missing 'start' field")
      else
      has_end <~ py_contains "end" segment;;
      if negb has_end then
        throw ValueError ("Segment " ++ nat_str i ++ ": Missing 'end' field")
      else
      has_output <~ py_contains "output" segment;;
      if negb has_output then
        throw ValueError ("Segment " ++ nat_str i ++ ": Missing 'output' field")
      else check_segments (S i) rest
  end.

(** The checks of [load_config] on the loaded document. *)
Definition validate_config (config : json) : outcome json :=
  has_source <~ py_contains "source" config;;
  if negb has_source then
    throw ValueError "Missing required field: 'source'"
  else
  has_segments <~ py_contains "segments" config;;
  if negb has_segments then
    throw ValueError "Missing required field: 'segments'"
  else
  segments <~ py_getitem config "segments";;
  if negb (is_list segments) then
    throw ValueError "'segments' must be a list"
  else
  n <~ py_len segments;;
  if Nat.eqb n 0 then throw ValueError "'segments' cannot be empty"
  else
  items <~ py_iter segments;;
  _ <~ check_segments 0 items;;
  Return config.

(** [load_config(config_path)] *)
Definition load_config (config_path : string) : outcome json :=
  if negb (path_exists W config_path) then
    throw FileNotFoundError ("Config file not found: " ++ config_path)
  else
    config <~ called (open_json W config_path);;
    validate_config config.

(** [get_ffmpeg_executable()] *)
Definition get_ffmpeg_executable : outcome string :=
  match imageio_ffmpeg W with
  | None =>
      throw ImportError
        ("imageio-ffmpeg is not installed. "
         ++ "Please install it with: pip install imageio-ffmpeg")
  | Some get_ffmpeg_exe =>
      ffmpeg_exe <~ called get_ffmpeg_exe;;
      if String.eqb ffmpeg_exe EmptyString then
        throw RuntimeError
          "Failed to get FFmpeg executable from imageio-ffmpeg"
      else Return ffmpeg_exe
  end.

(** [subprocess.run(cmd, stdout=PIPE, stderr=PIPE, text=True)]: the
    call is recorded, then it completes or raises as the world says. *)
Definition run_subprocess (inv : invocation) : M completed :=
  fun s =>
    let s' := State (console s) (calls s ++ [inv]) in
    match subprocess_run W (calls s) inv with
    | Ran r => (Return r, s')
    | Failed e => (Raise (Exc e), s')
    end.

(** The [cmd] list of [cut_segment]. *)
Definition ffmpeg_command (ffmpeg_exe : string) (source : json)
    (start end_ : float) (output : json) : list json :=
  [ JStr ffmpeg_exe;
    JStr "-ss"; JStr (py_str (JFloat start));
    JStr "-to"; JStr (py_str (JFloat end_));
    JStr "-i"; source;
    JStr "-map_metadata"; JStr "-1";
    JStr "-vn";
    JStr "-c"; JStr "copy";
    JStr "-y";
    output ].

(** [cut_segment(ffmpeg_exe, source, start, end, output)] *)
Definition cut_segment (ffmpeg_exe : string) (source : json)
    (start end_ : float) (output : json) : M bool :=
  let cmd := ffmpeg_command ffmpeg_exe source start end_ output in
  try_except
    (print W (PProcessing output start end_);;
     result <- run_subprocess (Invocation cmd PIPE PIPE true);;
     if negb (Z.eqb (returncode result) 0) then
       print W (PCutFailed output);;
       print W (PCutStderr (stderr result));;
       ret false
     else
       print W (PCutCreated output);;
       ret true)
    (fun e => Some (print W (PCutException e);; ret false)).

(** How the [try] statement of the loop body ends: by falling through
    to the [print()] after it, or by [continue]. *)
Inductive flow : Type :=
| FallThrough (success_count failed_count : nat)
| Continue (success_count failed_count : nat).

(** The body of the [try] statement of the loop of
    [process_segments]. *)
Definition attempt (ffmpeg_exe : string) (source segment : json)
    (success_count failed_count : nat) : M flow :=
  start_text <- lift (py_getitem segment "start");;
  start_seconds <- lift (parse_time_to_seconds start_text);;
  end_text <- lift (py_getitem segment "end");;
  end_seconds <- lift (parse_time_to_seconds end_text);;
  if float_ge start_seconds end_seconds then
    print W (PInvalidRange start_seconds end_seconds);;
    ret (Continue success_count (S failed_count))
  else
    output <- lift (py_getitem segment "output");;
    success <- cut_segment ffmpeg_exe source start_seconds
                 end_seconds output;;
    if success then ret (FallThrough (S success_count) failed_count)
    else ret (FallThrough success_count (S failed_count)).

(** Its two [except] clauses: [ValueError], then [Exception]. *)
Definition recover (success_count failed_count : nat) (e : exception)
  : option (M flow) :=
  if isinstance e ValueError then
    Some (print W (PTimeParseError e);;
          ret (FallThrough success_count (S failed_count)))
  else
    Some (print W (PUnexpected e);;
          ret (FallThrough success_count (S failed_count))).

(** One iteration of the [for] loop of [process_segments]. *)
Definition iteration (ffmpeg_exe : string) (source segments : json)
    (i : nat) (segment : json) (counts : nat * nat) : M (nat * nat) :=
  let '(success_count, failed_count) := counts in
  total <- lift (py_len segments);;
  print W (PIndex i total);;
  after <- try_except
             (attempt ffmpeg_exe source segment success_count failed_count)
             (recover success_count failed_count);;
  match after with
  | Continue s f => ret (s, f)
  | FallThrough s f => print W PBlank;; ret (s, f)
  end.

(** The [for] loop over [enumerate(segments, 1)], from index [i] on. *)
Fixpoint loop (ffmpeg_exe : string) (source segments : json) (i : nat)
    (items : list json) (counts : nat * nat) : M (nat * nat) :=
  match items with
  | [] => ret counts
  | segment :: rest =>
      counts' <- iteration ffmpeg_exe source segments i segment counts;;
      loop ffmpeg_exe source segments (S i) rest counts'
  end.

(** [Path(source)] followed by [.exists()] *)
Definition source_exists (source : json) : outcome bool :=
  match source with
  | JStr p => Return (path_exists W p)
  | v => throw TypeError
           ("expected str, bytes or os.PathLike object, not "
            ++ type_name v)
  end.

(** [process_segments(config, ffmpeg_exe)]; the counts it prints in
    its summary are returned for the statements below. *)
Definition process_segments (config : json) (ffmpeg_exe : string)
  : M (nat * nat) :=
  source <- lift (py_getitem config "source");;
  segments <- lift (py_getitem config "segments");;
  found <- lift (source_exists source);;
  if negb found then
    print W (PSourceNotFound source);;
    sys_exit 1
  else
    print W (PSource source);;
    total <- lift (py_len segments);;
    print W (PTotal total);;
    items <- lift (py_iter segments);;
    counts <- loop ffmpeg_exe source segments 1 items (0, 0);;
    print W PRule;;
    print W (PCompleted (fst counts) (snd counts));;
    print W PRule;;
    ret counts.

(** [main()] *)
Definition main : M unit :=
  if negb (Nat.eqb (List.length (argv W)) 2) then
    print W PUsage;;
    sys_exit 1
  else
    let config_path := nth 1 (argv W) EmptyString in
    try_except
      (print W PLoading;;
       config <- lift (load_config config_path);;
       print W PGetting;;
       ffmpeg_exe <- lift get_ffmpeg_executable;;
       print W (PFFmpeg ffmpeg_exe);;
       _ <- process_segments config ffmpeg_exe;;
       ret tt)
      (fun e =>
         if isinstance e FileNotFoundError then
           Some (print W (PError e);; sys_exit 1)
         else if isinstance e JSONDecodeError then
           Some (print W (PErrorJSON e);; sys_exit 1)
         else if isinstance e ValueError then
           Some (print W (PError e);; sys_exit 1)
         else if isinstance e ImportError then
           Some (print W (PError e);; sys_exit 1)
         else
           Some (print W (PErrorUnexpected e);; sys_exit 1)).

(** The exit status of the process: 0 when [main] returns, the code
    of [sys.exit], 1 for an exception nobody caught. *)
Definition exit_status (r : outcome unit) : Z :=
  match r with
  | Return _ => 0%Z
  | Raise (SystemExit code) => code
  | Raise (Exc _) => 1%Z
  end.

(** The program run as a script. *)
Definition run : Z * state :=
  let '(r, s) := main initial in (exit_status r, s).

End Program.

End Mp3Cut.

Import Text Num Py Mp3Cut.

(** ** A concrete interpreter, document and world

    Used to run the program on the inputs the statements below name. *)

Module Sample.

Local Open Scope Z_scope.

(** [repr] of a float with an integral value below 1e16, which is
    all that the runs below print. *)
Definition float_repr (f : float) : string :=
  match f with
  | S754_zero false => "0.0"
  | S754_zero true => "-0.0"
  | S754_infinity false => "inf"
  | S754_infinity true => "-inf"
  | S754_nan => "nan"
  | S754_finite s m e =>
      let sign := if s then "-" else EmptyString in
      if 0 <=? e then (sign ++ int_str (Zpos m * 2 ^ e) ++ ".0")%string
      else if Zpos m mod 2 ^ (- e) =? 0
           then (sign ++ int_str (Zpos m / 2 ^ (- e)) ++ ".0")%string
           else "?"
  end.

(** [repr] of floats as above, of integers and of strings without
    quotes or escapes. *)
Definition sample_repr (v : json) : string :=
  match v with
  | JFloat f => float_repr f
  | JStr s => ("'" ++ s ++ "'")%string
  | JInt n => int_str n
  | _ => "?"
  end.

(** CPython with its default limit on the digits of an [int]. *)
Definition cpython : runtime := Runtime 4300 sample_repr.

Definition seg (start end_ output : string) : json :=
  JDict [("start", JStr start); ("end", JStr end_); ("output", JStr output)].

Definition job (segments : list json) : json :=
  JDict [("source", JStr "in.mp3"); ("segments", JList segments)].

(** An external binary that always exits with status 0. *)
Definition ffmpeg_ok : list invocation -> invocation -> run_result :=
  fun _ _ => Ran (Completed 0 EmptyString EmptyString).

(** A machine with [job.json] holding [doc], the files named in
    [files], FFmpeg installed and [mp3_cut.py job.json] typed. *)
Definition desk (doc : json) (files : list string)
    (ffmpeg : list invocation -> invocation -> run_result) : world :=
  World ["mp3_cut.py"; "job.json"]
        (fun p => existsb (String.eqb p) files)
        (fun _ => inr doc)
        (Some (inr "/opt/ffmpeg"))
        ffmpeg
        None.

(** The text of the [UnicodeEncodeError] of a console with the [ascii]
    codec: the mark is the third character of every line that has
    one. *)
Definition ascii_refusal (l : line) : string :=
  match l with
  | PCutCreated _ =>
      "'ascii' codec can't encode character '\u2713' in position 2: "
      ++ "ordinal not in range(128)"
  | _ =>
      "'ascii' codec can't encode character '\u2717' in position 2: "
      ++ "ordinal not in range(128)"
  end.

(** The same machine with a console of the [ascii] codec. *)
Definition on_ascii_console (W : world) : world :=
  World (argv W) (path_exists W) (open_json W) (imageio_ffmpeg W)
        (subprocess_run W) (Some ascii_refusal).

(** Three segments, the second with an unparsable start. *)
Definition first : json := seg "0" "10" "a.mp3".
Definition second : json := seg "abc" "20" "b.mp3".
Definition third : json := seg "1:00" "1:30" "c.mp3".
Definition three_segments : json := job [first; second; third].

(** A segment that ends before it starts, and one before time 0. *)
Definition backwards : json := seg "00:10" "00:05" "d.mp3".

(** The job of three segments with its source present, and with its
    source missing. *)
Definition office : world :=
  desk three_segments ["job.json"; "in.mp3"] ffmpeg_ok.
Definition no_source : world :=
  desk three_segments ["job.json"] ffmpeg_ok.


(** Documents that fail the structural checks. *)
Definition without_source : json := JDict [("segments", JList [first])].
Definition without_segments : json := JDict [("source", JStr "in.mp3")].
Definition segments_object : json :=
  JDict [("source", JStr "in.mp3"); ("segments", JDict [])].
Definition segment_without_end : json :=
  JDict [("start", JStr "0"); ("output", JStr "x.mp3")].
Definition second_incomplete : json := job [first; segment_without_end].

Definition reading (doc : json) : world :=
  desk doc ["job.json"; "in.mp3"] ffmpeg_ok.

(** The text [1000...0:00] with 400 zeros in its first field. *)
Definition huge_minutes : string :=
  (String "1" (repeat_string "0" 400) ++ ":00")%string.

End Sample.

(** ** The notions the statements are written with *)

Module Notions.


(** The characters a text accepted by [float()] is made of, once the
    blanks around it are skipped. *)
Definition float_char (c : ascii) : bool :=
  is_digit c
  || existsb (Ascii.eqb c) (chars "+-._")
  || existsb (Ascii.eqb (to_lower c)) (chars "einfaty").





(** The failure [InvalidTimeFormat]: a [ValueError]. *)
Definition invalid_time_format (r : outcome float) : bool :=
  match r with
  | Raise (Exc e) => isinstance e ValueError
  | _ => false
  end.

(** [n + x] in Python, for an [int] [n] that converts to a float. *)
Definition sum_when_convertible (n : Z) (x : float) : outcome float :=
  match float_of_int n with
  | Some f => Return (SFadd prec emax f x)
  | None => throw OverflowError "int too large to convert to float"
  end.

(** The call [cut_segment] makes. *)
Definition ffmpeg_call (rt : runtime) (ffmpeg_exe : string) (source : json)
    (start end_ : float) (output : json) : invocation :=
  Invocation (ffmpeg_command rt ffmpeg_exe source start end_ output)
             PIPE PIPE true.

(** The two offsets of a segment as the loop reads them: [start] is
    looked up and parsed, then [end]. *)
Definition read_segment (rt : runtime) (segment : json)
  : outcome (float * float) :=
  (start_text <~ py_getitem rt segment "start";;
   start_seconds <~ parse_time_to_seconds rt start_text;;
   end_text <~ py_getitem rt segment "end";;
   end_seconds <~ parse_time_to_seconds rt end_text;;
   Return (start_seconds, end_seconds))%py.



(** [inv] is the call made for [segment]: the fixed argument sequence
    around its parsed offsets and its output, both streams captured. *)
Definition segment_call (rt : runtime) (ffmpeg_exe : string)
    (source segment : json) (inv : invocation) : Prop :=
  exists a b output,
    read_segment rt segment = Return (a, b)
    /\ py_getitem rt segment "output" = Return output
    /\ inv = Invocation
               [ JStr ffmpeg_exe;
                 JStr "-ss"; JStr (py_str rt (JFloat a));
                 JStr "-to"; JStr (py_str rt (JFloat b));
                 JStr "-i"; source;
                 JStr "-map_metadata"; JStr "-1";
                 JStr "-vn";
                 JStr "-c"; JStr "copy";
                 JStr "-y";
                 output ]
               PIPE PIPE true.

(** The line an [except] clause of the loop prints for [e]. *)
Definition recovery_line (e : exception) : line :=
  if isinstance e ValueError then PTimeParseError e else PUnexpected e.

(** What one iteration does after its header, read off the segment and
    the world: the new counts, the lines printed and the calls made. *)
Definition iteration_effect (rt : runtime) (W : world) (ffmpeg_exe : string)
    (source segment : json) (history : list invocation)
    (success_count failed_count : nat)
  : outcome (nat * nat) * list line * list invocation :=
  let failed := Return (success_count, S failed_count) in
  match read_segment rt segment with
  | Raise (Exc e) => (failed, [recovery_line e; PBlank], [])
  | Raise r => (Raise r, [], [])
  | Return (a, b) =>
      if float_ge a b then (failed, [PInvalidRange a b], [])
      else
        match py_getitem rt segment "output" with
        | Raise (Exc e) => (failed, [recovery_line e; PBlank], [])
        | Raise r => (Raise r, [], [])
        | Return output =>
            let inv := ffmpeg_call rt ffmpeg_exe source a b output in
            match subprocess_run W history inv with
            | Ran r =>
                if Z.eqb (returncode r) 0
                then (Return (S success_count, failed_count),
                      [PProcessing output a b; PCutCreated output; PBlank],
                      [inv])
                else (failed,
                      [PProcessing output a b; PCutFailed output;
                       PCutStderr (stderr r); PBlank],
                      [inv])
            | Failed e =>
                (failed,
                 [PProcessing output a b; PCutException e; PBlank],
                 [inv])
            end
        end
  end.

(** A segment header [[i/n]] was printed. *)
Definition is_header (l : line) : bool :=
  match l with
  | PIndex _ _ => true
  | _ => false
  end.

(** No segment was attempted: no header is on the console. *)
Definition no_segment_attempted (s : state) : bool :=
  forallb (fun l => negb (is_header l)) (console s).

(** The line the [except] clauses of [main] print for [e]. *)
Definition main_error_line (e : exception) : line :=
  if isinstance e FileNotFoundError then PError e
  else if isinstance e JSONDecodeError then PErrorJSON e
  else if isinstance e ValueError then PError e
  else if isinstance e ImportError then PError e
  else PErrorUnexpected e.

(** The entry holds the field, or lacks it. *)
Definition has_field (field : string) (entry : json) : bool :=
  match py_contains field entry with
  | Return true => true
  | _ => false
  end.

Definition lacks_field (field : string) (entry : json) : bool :=
  match py_contains field entry with
  | Return false => true
  | _ => false
  end.

(** A segment entry with its three fields. *)
Definition complete (entry : json) : bool :=
  has_field "start" entry && has_field "end" entry
  && has_field "output" entry.

(** The first of [start], [end], [output] the entry lacks, the fields
    before it being present. *)
Definition first_missing (entry : json) : option string :=
  if lacks_field "start" entry then Some "start"
  else if has_field "start" entry && lacks_field "end" entry
       then Some "end"
  else if has_field "start" entry && has_field "end" entry
          && lacks_field "output" entry
       then Some "output"
  else None.

End Notions.

Import Notions.

(** ** Further notions: what a run is going to do *)

Module Plans.

(** The call the loop makes for a segment, if it makes one: the
    offsets parse, the start is not greater than or equal to the end
    and the entry has an output. *)
Definition planned_calls (rt : runtime) (ffmpeg_exe : string)
    (source segment : json) : list invocation :=
  match read_segment rt segment with
  | Return (a, b) =>
      if float_ge a b then []
      else match py_getitem rt segment "output" with
           | Return output => [ffmpeg_call rt ffmpeg_exe source a b output]
           | Raise _ => []
           end
  | Raise _ => []
  end.




(** The document passes every check of [load_config]: it holds
    [source] and [segments], [segments] is a list with an entry, and
    each entry holds [start], [end] and [output]. *)
Definition well_formed (rt : runtime) (config : json) : bool :=
  has_field "source" config && has_field "segments" config &&
  match py_getitem rt config "segments" with
  | Return (JList (entry :: rest)) => forallb complete (entry :: rest)
  | _ => false
  end.

(** [isinstance(v, dict)] *)
Definition is_dict (v : json) : bool :=
  match v with
  | JDict _ => true
  | _ => false
  end.

(** [math.isnan(f)] *)
Definition is_nan (f : float) : bool :=
  match f with
  | S754_nan => true
  | _ => false
  end.

End Plans.

Import Plans.

(** ** Further sample documents and worlds *)

Module Cases.

Definition still : json := Sample.seg "5" "5.0" "s.mp3".
Definition text_entry : json := JStr "start end output".

(** An external binary whose first call exits with status 0 and whose
    later calls exit with the number of calls made before them. *)
Definition ffmpeg_once : list invocation -> invocation -> run_result :=
  fun history _ =>
    Ran (Completed (Z.of_nat (List.length history)) EmptyString "busy").

(** A job of five entries: two that are called, a text, a segment
    that ends before it starts and one with an unparsable start. *)
Definition five : list json :=
  [Sample.first; text_entry; Sample.third; Sample.backwards; Sample.second].

Definition busy : world :=
  Sample.desk (Sample.job five) ["job.json"; "in.mp3"] ffmpeg_once.

End Cases.

(** ** The notations of the specification, read to the letter *)

Module Grammar.

(** One or more decimal digits. *)
Definition digits (t : list ascii) : bool :=
  negb (Nat.eqb (List.length t) 0) && forallb is_digit t.







End Grammar.

(** ** The shape of a document *)

Module Shape.

(** The object with the bindings [d] has the key [k]. *)
Definition has_key (k : string) (d : list (string * json)) : Prop :=
  In k (map fst d).

(** A segment entry that is an object with the three keys. *)
Definition segment_object (entry : json) : Prop :=
  exists d,
    entry = JDict d
    /\ has_key "start" d /\ has_key "end" d /\ has_key "output" d.

(** [field] is the first of [start], [end], [output] that the object
    with the bindings [d] does not have. *)
Definition first_absent (d : list (string * json)) (field : string) : Prop :=
  (field = "start" /\ ~ has_key "start" d)
  \/ (field = "end" /\ has_key "start" d /\ ~ has_key "end" d)
  \/ (field = "output" /\ has_key "start" d /\ has_key "end" d
      /\ ~ has_key "output" d).

End Shape.

(** ** Sample runs on a console of the [ascii] codec, and odd inputs *)

Module Odd.

(** The job of three segments on a console of the [ascii] codec. *)
Definition ascii_office : world := Sample.on_ascii_console Sample.office.

(** A job of the one segment that ends before it starts, on the same
    console. *)
Definition ascii_backwards : world :=
  Sample.on_ascii_console
    (Sample.desk (Sample.job [Sample.backwards]) ["job.json"; "in.mp3"]
                 Sample.ffmpeg_ok).


(** Entries that are not objects: a list of the three field names,
    and [null]. *)
Definition name_list : json :=
  JList [JStr "start"; JStr "end"; JStr "output"].

(** Jobs of one such entry. *)
Definition text_job : json := Sample.job [Cases.text_entry].
Definition list_job : json := Sample.job [name_list].
Definition null_job : json := Sample.job [JNull].

End Odd.

(** ** The interpreter operations on sample texts *)

Example float_of_tenth :
  py_float (chars "0.1") = Some (S754_finite false 7205759403792794 (-56)).
Proof. vm_compute. reflexivity. Qed.

Example float_forms :
  py_float (chars " 1_0.5e1 ") = Some (float_lit 105)
  /\ py_float (chars "5.") = Some (float_lit 5)
  /\ py_float (chars "-Infinity") = Some (S754_infinity true)
  /\ py_float (chars "nan") = Some S754_nan
  /\ py_float (chars "1e400") = Some (S754_infinity false)
  /\ py_float (chars "1e-400") = Some (S754_zero false)
  /\ py_float (chars "-0") = Some (S754_zero true).
Proof. repeat split; vm_compute; reflexivity. Qed.

Example float_rejects :
  py_float (chars ".") = None
  /\ py_float (chars "1e") = None
  /\ py_float (chars "1_e5") = None
  /\ py_float (chars "0x10") = None
  /\ py_float (chars "- 1") = None
  /\ py_float (ascii_of_nat 28 :: chars "1") = None.
Proof. repeat split; vm_compute; reflexivity. Qed.

Example int_forms :
  py_int 4300 (chars " -1_000 ") = Some (-1000)%Z
  /\ py_int 4300 (chars "+07") = Some 7%Z
  /\ py_int 4300 (chars "1.0") = None
  /\ py_int 4300 (chars "1__0") = None
  /\ py_int 640 (chars (repeat_string "9" 641)) = None
  /\ py_int 4300 (chars (repeat_string "9" 641)) = Some (10 ^ 641 - 1)%Z.
Proof.
  do 5 (split; [vm_compute; reflexivity|]). vm_compute. reflexivity.
Qed.

Example text_forms :
  split ":"%char (chars "1:02:03") = [chars "1"; chars "02"; chars "03"]
  /\ split ":"%char [] = [[]]
  /\ split ":"%char (chars "a:") = [chars "a"; []]
  /\ text (strip (ascii_of_nat 28 :: chars " a b  ")) = "a b".
Proof. repeat split. Qed.

(** ** Facts about the text operations *)

Section StripFacts.

Variable blank : ascii -> bool.

Lemma lstrip_by_idempotent (l : list ascii) :
  lstrip_by blank (lstrip_by blank l) = lstrip_by blank l.
Proof.
  induction l as [|c r IH]; simpl; [reflexivity|].
  destruct (blank c) eqn:Hc; [exact IH|].
  simpl. now rewrite Hc.
Qed.

Lemma lstrip_by_snoc (x : list ascii) (c : ascii) :
  blank c = false -> exists x', lstrip_by blank (x ++ [c]) = x' ++ [c].
Proof.
  intros Hc. induction x as [|a x IH]; simpl.
  - rewrite Hc. now exists [].
  - destruct (blank a); [exact IH|].
    now exists (a :: x).
Qed.

Lemma rstrip_by_keeps_head (c : ascii) (m : list ascii) :
  blank c = false -> exists m', rstrip_by blank (c :: m) = c :: m'.
Proof.
  intros Hc. unfold rstrip_by. simpl.
  destruct (lstrip_by_snoc (rev m) c Hc) as [x' Hx].
  rewrite Hx, rev_app_distr. simpl. now eexists.
Qed.

Lemma rstrip_by_idempotent (l : list ascii) :
  rstrip_by blank (rstrip_by blank l) = rstrip_by blank l.
Proof.
  unfold rstrip_by. now rewrite rev_involutive, lstrip_by_idempotent.
Qed.

Lemma lstrip_by_head (l : list ascii) :
  lstrip_by blank l = []
  \/ exists c m, lstrip_by blank l = c :: m /\ blank c = false.
Proof.
  induction l as [|c r IH]; simpl; [now left|].
  destruct (blank c) eqn:Hc; [exact IH|].
  right. now exists c, r.
Qed.

Lemma strip_by_idempotent (l : list ascii) :
  strip_by blank (strip_by blank l) = strip_by blank l.
Proof.
  unfold strip_by.
  destruct (lstrip_by_head l) as [E | (c & m & E & Hc)]; rewrite E.
  - reflexivity.
  - destruct (rstrip_by_keeps_head c m Hc) as [m' Hm].
    assert (H : lstrip_by blank (rstrip_by blank (c :: m))
                = rstrip_by blank (c :: m)).
    { rewrite Hm. simpl. now rewrite Hc. }
    rewrite H. apply rstrip_by_idempotent.
Qed.

(** Stripping keeps every character that is not a blank. *)
Lemma lstrip_by_In (c : ascii) (l : list ascii) :
  blank c = false -> In c l -> In c (lstrip_by blank l).
Proof.
  intros Hc. induction l as [|a l IH]; simpl; [tauto|].
  intros [-> | H].
  - rewrite Hc. now left.
  - destruct (blank a); [now apply IH | now right].
Qed.

Lemma strip_by_In (c : ascii) (l : list ascii) :
  blank c = false -> In c l -> In c (strip_by blank l).
Proof.
  intros Hc H. unfold strip_by, rstrip_by.
  apply in_rev. rewrite rev_involutive.
  apply lstrip_by_In; [exact Hc|].
  apply -> in_rev. now apply lstrip_by_In.
Qed.

(** What stripping removes on each side is made of blanks. *)
Lemma lstrip_by_decompose (l : list ascii) :
  exists w, l = w ++ lstrip_by blank l /\ forallb blank w = true.
Proof.
  induction l as [|c r (w & E & F)]; simpl.
  - now exists [].
  - destruct (blank c) eqn:Hc.
    + exists (c :: w). simpl. rewrite Hc, F. split; [now f_equal | reflexivity].
    + now exists [].
Qed.

Lemma forallb_rev (p : ascii -> bool) (l : list ascii) :
  forallb p (rev l) = forallb p l.
Proof.
  induction l as [|c r IH]; simpl; [reflexivity|].
  rewrite forallb_app, IH. simpl. rewrite andb_true_r. apply andb_comm.
Qed.

Lemma strip_by_decompose (l : list ascii) :
  exists w1 w2,
    l = w1 ++ strip_by blank l ++ w2
    /\ forallb blank w1 = true /\ forallb blank w2 = true.
Proof.
  destruct (lstrip_by_decompose l) as (w1 & E1 & F1).
  destruct (lstrip_by_decompose (rev (lstrip_by blank l))) as (w & E2 & F2).
  exists w1, (rev w). unfold strip_by, rstrip_by.
  split; [|split; [exact F1 | now rewrite forallb_rev]].
  rewrite <- rev_app_distr, <- E2, rev_involutive. exact E1.
Qed.

Lemma lstrip_by_blanks (w l : list ascii) :
  forallb blank w = true -> lstrip_by blank (w ++ l) = lstrip_by blank l.
Proof.
  induction w as [|c w IH]; simpl; [reflexivity|].
  intros H. apply andb_true_iff in H as [Hc Hw]. rewrite Hc. now apply IH.
Qed.

Lemma lstrip_by_clean (l : list ascii) :
  forallb (fun c => negb (blank c)) l = true -> lstrip_by blank l = l.
Proof.
  destruct l as [|c r]; simpl; [reflexivity|].
  intros H. apply andb_true_iff in H as [Hc _].
  now destruct (blank c).
Qed.

(** A text without blanks, with blanks around it, strips to itself. *)
Lemma strip_by_sandwich (w1 u w2 : list ascii) :
  forallb blank w1 = true ->
  forallb blank w2 = true ->
  forallb (fun c => negb (blank c)) u = true ->
  strip_by blank (w1 ++ u ++ w2) = u.
Proof.
  intros F1 F2 Fu. unfold strip_by, rstrip_by.
  rewrite (lstrip_by_blanks w1 _ F1).
  assert (E2 : lstrip_by blank w2 = []).
  { rewrite <- (app_nil_r w2). now rewrite lstrip_by_blanks. }
  destruct u as [|c r].
  - simpl. now rewrite E2.
  - assert (E : lstrip_by blank ((c :: r) ++ w2) = (c :: r) ++ w2).
    { simpl in *. apply andb_true_iff in Fu as [Hc _].
      now destruct (blank c). }
    rewrite E, rev_app_distr, lstrip_by_blanks by now rewrite forallb_rev.
    rewrite lstrip_by_clean by now rewrite forallb_rev.
    apply rev_involutive.
Qed.

End StripFacts.

Section TextFacts.

Lemma chars_text (l : list ascii) : chars (text l) = l.
Proof. apply list_ascii_of_string_of_list_ascii. Qed.

Lemma text_chars (s : string) : text (chars s) = s.
Proof. apply string_of_list_ascii_of_string. Qed.

(** [s.strip().strip() == s.strip()] *)
Lemma strip_idempotent (l : list ascii) : strip (strip l) = strip l.
Proof. apply strip_by_idempotent. Qed.

(** A text that [split] cuts in two or more pieces holds the
    separator. *)
Lemma split_two_In (sep : ascii) (l : list ascii) a b rest :
  split sep l = a :: b :: rest -> In sep l.
Proof.
  revert a b rest. induction l as [|c r IH]; simpl; intros a b rest H.
  - discriminate.
  - destruct (Ascii.eqb c sep) eqn:E.
    + left. now apply Ascii.eqb_eq.
    + right. destruct (split sep r) as [|h [|h' t]] eqn:S; try discriminate.
      eapply IH. reflexivity.
Qed.

Lemma list_eqb_eq (a b : list ascii) : list_eqb a b = true -> a = b.
Proof.
  revert b. induction a as [|x a IH]; intros [|y b]; simpl; try discriminate.
  - reflexivity.
  - intros H. apply andb_true_iff in H as [H1 H2].
    apply Ascii.eqb_eq in H1. subst. f_equal. now apply IH.
Qed.

Lemma forallb_false_In {A} (p : A -> bool) (l : list A) :
  forallb p l = false -> exists x, In x l /\ p x = false.
Proof.
  induction l as [|a l IH]; simpl; [discriminate|].
  destruct (p a) eqn:Ha; simpl.
  - intros H. destruct (IH H) as (x & Hx & Px). exists x. now split; [right|].
  - intros _. exists a. now split; [left|].
Qed.

End TextFacts.

(** ** Facts about [float(str)] *)

Section FloatFacts.

(** What a character outside [float_char] is not. *)
Lemma float_char_false (c : ascii) :
  float_char c = false ->
  is_digit c = false
  /\ c <> "_"%char /\ c <> "-"%char /\ c <> "+"%char /\ c <> "."%char
  /\ to_lower c <> "e"%char
  /\ ~ In (to_lower c) (chars "infinity")
  /\ ~ In (to_lower c) (chars "nan").
Proof.
  destruct c as [[] [] [] [] [] [] [] []]; intros H;
    try discriminate H;
    (repeat split; try reflexivity; try discriminate;
     simpl; intuition discriminate).
Qed.

(** A character of [float_char] is not a blank of any kind. *)
Lemma float_char_not_space (c : ascii) :
  float_char c = true -> is_space c = false.
Proof.
  destruct c as [[] [] [] [] [] [] [] []]; intros H;
    try discriminate H; reflexivity.
Qed.

Lemma number_space_is_space (c : ascii) :
  is_number_space c = true -> is_space c = true.
Proof.
  destruct c as [[] [] [] [] [] [] [] []]; intros H;
    try discriminate H; reflexivity.
Qed.

Lemma span_digits_spec (l : list ascii) :
  l = fst (span_digits l) ++ snd (span_digits l)
  /\ forallb is_digit (fst (span_digits l)) = true.
Proof.
  induction l as [|c r [IH1 IH2]]; simpl; [now split|].
  destruct (is_digit c) eqn:Hc; simpl.
  - destruct (span_digits r) as [d rest]; simpl in *.
    split; [now rewrite IH1 at 1 | now rewrite Hc].
  - now split.
Qed.

Lemma In_not_digit (c : ascii) (l : list ascii) :
  is_digit c = false -> In c l -> forallb is_digit l = false.
Proof.
  intros Hc. induction l as [|a l IH]; simpl; [tauto|].
  intros [-> | H].
  - now rewrite Hc.
  - rewrite (IH H). apply andb_false_r.
Qed.

Lemma span_digits_rest (c : ascii) (l : list ascii) :
  is_digit c = false -> In c l -> In c (snd (span_digits l)).
Proof.
  intros Hc H. destruct (span_digits_spec l) as [E D].
  rewrite E in H. apply in_app_or in H as [H | H]; [|exact H].
  rewrite (In_not_digit c _ Hc H) in D. discriminate.
Qed.

Lemma strip_underscores_In (c : ascii) (l u : list ascii) (p : bool) :
  c <> "_"%char -> In c l -> strip_underscores p l = Some u -> In c u.
Proof.
  intros Hc. revert p u. induction l as [|a l IH]; intros p u Hin H.
  - destruct Hin.
  - simpl in H. destruct (Ascii.eqb a "_") eqn:E.
    + apply Ascii.eqb_eq in E. subst a.
      destruct Hin as [Hin | Hin]; [now symmetry in Hin|].
      destruct l as [|d l']; [discriminate|].
      destruct (p && is_digit d); [|discriminate].
      eapply IH; eauto.
    + destruct (strip_underscores (is_digit a) l) as [r'|] eqn:S;
        [|discriminate].
      inversion H; subst u. destruct Hin as [-> | Hin]; [now left|].
      right. eapply IH; eauto.
Qed.

Lemma parse_sign_In (c : ascii) (l : list ascii) :
  c <> "-"%char -> c <> "+"%char -> In c l -> In c (snd (parse_sign l)).
Proof.
  intros H1 H2 Hin. destruct l as [|a l]; [destruct Hin|].
  simpl. destruct (Ascii.eqb a "-") eqn:E1.
  - apply Ascii.eqb_eq in E1. subst. destruct Hin; [congruence | assumption].
  - destruct (Ascii.eqb a "+") eqn:E2; [|exact Hin].
    apply Ascii.eqb_eq in E2. subst. destruct Hin; [congruence | assumption].
Qed.

Lemma parse_exponent_stranger (c : ascii) (l : list ascii) :
  float_char c = false -> In c l -> parse_exponent l = None.
Proof.
  intros Hc Hin.
  destruct (float_char_false c Hc) as (D & _ & Hm & Hp & _ & He & _).
  destruct l as [|a r]; [destruct Hin|].
  simpl. destruct (Ascii.eqb (to_lower a) "e") eqn:E; [|reflexivity].
  apply Ascii.eqb_eq in E.
  destruct Hin as [-> | Hin]; [contradiction|].
  pose proof (parse_sign_In c r Hm Hp Hin) as H.
  destruct (parse_sign r) as [neg ds]. simpl in H.
  now rewrite (In_not_digit c ds D H).
Qed.

Lemma parse_decimal_stranger (c : ascii) (l : list ascii) :
  float_char c = false -> In c l -> parse_decimal l = None.
Proof.
  intros Hc Hin. unfold parse_decimal.
  destruct (float_char_false c Hc) as (D & _ & _ & _ & Hd & _).
  pose proof (span_digits_rest c l D Hin) as H1.
  destruct (span_digits l) as [ip r1]. simpl in H1.
  assert (H2 : In c
                 (snd (match r1 with
                       | a :: r =>
                           if Ascii.eqb a "." then span_digits r else ([], r1)
                       | [] => ([], [])
                       end))).
  { destruct r1 as [|a r]; [destruct H1|].
    destruct (Ascii.eqb a ".") eqn:E; [|exact H1].
    apply Ascii.eqb_eq in E. subst a.
    destruct H1 as [H1 | H1]; [now symmetry in H1|].
    now apply span_digits_rest. }
  destruct (match r1 with
            | a :: r => if Ascii.eqb a "." then span_digits r else ([], r1)
            | [] => ([], [])
            end) as [fp r2].
  simpl in H2. rewrite (parse_exponent_stranger c r2 Hc H2).
  now destruct (Nat.eqb _ 0).
Qed.

Lemma ci_eqb_stranger (c : ascii) (l : list ascii) (pattern : string) :
  In c l -> ~ In (to_lower c) (chars pattern) -> ci_eqb l pattern = false.
Proof.
  intros Hin Hp. unfold ci_eqb.
  destruct (list_eqb _ _) eqn:E; [|reflexivity].
  apply list_eqb_eq in E. exfalso. apply Hp. rewrite <- E.
  now apply in_map.
Qed.

(** A text with a character outside [float_char] is not a number. *)
Lemma float_of_text_stranger (c : ascii) (t : list ascii) :
  float_char c = false -> In c t -> float_of_text t = None.
Proof.
  intros Hc Hin. unfold float_of_text.
  destruct (float_char_false c Hc) as (_ & Hu & Hm & Hp & _ & _ & Hi & Hn).
  destruct (strip_underscores false t) as [u|] eqn:S; [|reflexivity].
  pose proof (strip_underscores_In c _ _ _ Hu Hin S) as Hin'.
  pose proof (parse_sign_In c u Hm Hp Hin') as Hb.
  destruct (parse_sign u) as [neg body]. simpl in Hb.
  rewrite (parse_decimal_stranger c body Hc Hb).
  rewrite (ci_eqb_stranger c body "inf" Hb)
    by (intros H; apply Hi; simpl in *; tauto).
  rewrite (ci_eqb_stranger c body "infinity" Hb Hi).
  now rewrite (ci_eqb_stranger c body "nan" Hb Hn).
Qed.

(** [float(s)] raises [ValueError] for every text that holds a colon. *)
Lemma py_float_colon (l : list ascii) :
  In ":"%char l -> py_float l = None.
Proof.
  intros Hin. unfold py_float, number_strip.
  apply (float_of_text_stranger ":"); [reflexivity|].
  now apply strip_by_In.
Qed.

(** The text of an accepted number is made of [float_char] only. *)
Lemma float_of_text_chars (t : list ascii) (f : float) :
  float_of_text t = Some f -> forallb float_char t = true.
Proof.
  intros H. destruct (forallb float_char t) eqn:E; [reflexivity|].
  destruct (forallb_false_In _ _ E) as (c & Hin & Hc).
  rewrite (float_of_text_stranger c t Hc Hin) in H. discriminate.
Qed.

(** When [float(s)] is defined, [float(s.strip())] is the same value. *)
Lemma py_float_strip (l : list ascii) (f : float) :
  py_float l = Some f -> py_float (strip l) = Some f.
Proof.
  unfold py_float, number_strip, strip. intros H.
  pose proof (float_of_text_chars _ _ H) as C.
  destruct (strip_by_decompose is_number_space l) as (w1 & w2 & E & F1 & F2).
  set (u := strip_by is_number_space l) in *.
  assert (Cs : forallb (fun c => negb (is_space c)) u = true).
  { apply forallb_forall. intros c Hc.
    rewrite forallb_forall in C.
    now rewrite (float_char_not_space c (C c Hc)). }
  assert (Cn : forallb (fun c => negb (is_number_space c)) u = true).
  { apply forallb_forall. intros c Hc.
    rewrite forallb_forall in Cs. specialize (Cs c Hc).
    destruct (is_number_space c) eqn:N; [|reflexivity].
    now rewrite (number_space_is_space c N) in Cs. }
  assert (S1 : strip_by is_space l = u).
  { rewrite E at 1. apply strip_by_sandwich; [| |exact Cs].
    - apply forallb_forall. intros c Hc. rewrite forallb_forall in F1.
      now apply number_space_is_space, F1.
    - apply forallb_forall. intros c Hc. rewrite forallb_forall in F2.
      now apply number_space_is_space, F2. }
  rewrite S1.
  replace (strip_by is_number_space u) with u; [exact H|].
  symmetry. rewrite <- (app_nil_r u) at 1.
  now apply (strip_by_sandwich is_number_space [] u []).
Qed.

End FloatFacts.

(** ** The time parser *)

Section TimeParser.

Variable rt : runtime.

Lemma isinstance_ValueError (msg : string) :
  isinstance (Exn ValueError msg) ValueError = true.
Proof. reflexivity. Qed.

Lemma parse_time_strips (s : string) :
  parse_time_to_seconds rt (JStr s)
  = parse_time_to_seconds rt (JStr (text (strip (chars s)))).
Proof.
  unfold parse_time_to_seconds. cbn [str_of obind py_str].
  now rewrite chars_text, strip_idempotent.
Qed.

Lemma parse_time_bare (s : string) (f : float) :
  py_float (chars s) = Some f ->
  parse_time_to_seconds rt (JStr s) = Return f.
Proof.
  intros H. unfold parse_time_to_seconds, float_of_str. cbn [str_of obind py_str].
  now rewrite (py_float_strip _ _ H).
Qed.

Lemma parse_time_mm_ss (s : string) (p0 p1 : list ascii) (m : Z) (x : float) :
  split ":"%char (strip (chars s)) = [p0; p1] ->
  py_int (int_max_str_digits rt) p0 = Some m ->
  py_float p1 = Some x ->
  parse_time_to_seconds rt (JStr s) = sum_when_convertible (m * 60) x.
Proof.
  intros Hs H0 H1.
  unfold parse_time_to_seconds, float_of_str, int_of_str. cbn [str_of obind py_str].
  rewrite py_float_colon by (eapply split_two_In; exact Hs).
  unfold throw. rewrite isinstance_ValueError, Hs, H0, H1. simpl.
  unfold add_int_float, int_add_float, sum_when_convertible.
  now destruct (float_of_int (m * 60)).
Qed.

Lemma parse_time_hh_mm_ss (s : string) (p0 p1 p2 : list ascii) (h m : Z)
    (x : float) :
  split ":"%char (strip (chars s)) = [p0; p1; p2] ->
  py_int (int_max_str_digits rt) p0 = Some h ->
  py_int (int_max_str_digits rt) p1 = Some m ->
  py_float p2 = Some x ->
  parse_time_to_seconds rt (JStr s)
  = sum_when_convertible (h * 3600 + m * 60) x.
Proof.
  intros Hs H0 H1 H2.
  unfold parse_time_to_seconds, float_of_str, int_of_str. cbn [str_of obind py_str].
  rewrite py_float_colon by (eapply split_two_In; exact Hs).
  unfold throw. rewrite isinstance_ValueError, Hs, H0, H1, H2. simpl.
  unfold add_int_float, int_add_float, sum_when_convertible.
  now destruct (float_of_int (h * 3600 + m * 60)).
Qed.

(** X18: a text that [float()] accepts parses to the float it reads;
    a text of two colon-separated fields of which [int()] accepts the
    first as [m] and [float()] the second as [x] parses to
    [m*60 + x], and a text of three fields read as [h], [m] and [x] to
    [h*3600 + m*60 + x], whenever the integer part of the sum converts
    to a float, and raises [OverflowError] otherwise; ["1:30"],
    ["1:02:03"] and ["90"] parse to 90.0, 3723.0 and 90.0; leading and
    trailing whitespace is stripped before matching. *)
Theorem parse_time_semantics :
  (forall s f,
      py_float (chars s) = Some f ->
      parse_time_to_seconds rt (JStr s) = Return f)
  /\ (forall s p0 p1 m x,
         split ":"%char (strip (chars s)) = [p0; p1] ->
         py_int (int_max_str_digits rt) p0 = Some m ->
         py_float p1 = Some x ->
         parse_time_to_seconds rt (JStr s)
         = sum_when_convertible (m * 60) x)
  /\ (forall s p0 p1 p2 h m x,
         split ":"%char (strip (chars s)) = [p0; p1; p2] ->
         py_int (int_max_str_digits rt) p0 = Some h ->
         py_int (int_max_str_digits rt) p1 = Some m ->
         py_float p2 = Some x ->
         parse_time_to_seconds rt (JStr s)
         = sum_when_convertible (h * 3600 + m * 60) x)
  /\ parse_time_to_seconds rt (JStr "1:30") = Return (float_lit 90)
  /\ parse_time_to_seconds rt (JStr "1:02:03") = Return (float_lit 3723)
  /\ parse_time_to_seconds rt (JStr "90") = Return (float_lit 90)
  /\ (forall s,
         parse_time_to_seconds rt (JStr s)
         = parse_time_to_seconds rt (JStr (text (strip (chars s))))).
Proof.
  split; [exact parse_time_bare|].
  split; [exact parse_time_mm_ss|].
  split; [exact parse_time_hh_mm_ss|].
  split; [|split; [|split]].
  - erewrite (parse_time_mm_ss "1:30") by (vm_compute; reflexivity).
    reflexivity.
  - erewrite (parse_time_hh_mm_ss "1:02:03") by (vm_compute; reflexivity).
    reflexivity.
  - now apply parse_time_bare.
  - exact parse_time_strips.
Qed.

End TimeParser.

(** C2: on a two-field text whose minutes are the integer 1 followed
    by 400 zeros, both fields are accepted and the parser raises
    [OverflowError], which is neither the float nor the [ValueError]
    its docstring announces: [minutes * 60 + seconds] adds an [int]
    beyond the range of floats to a float.  The same magnitude written
    as the bare number [1e400] parses to an infinity. *)
Theorem parse_time_huge_minutes_raises :
  split ":"%char (strip (chars Sample.huge_minutes))
  = [chars (String "1" (repeat_string "0" 400)); chars "00"]
  /\ py_int 4300 (chars (String "1" (repeat_string "0" 400)))
     = Some (10 ^ 400)%Z
  /\ py_float (chars "00") = Some (S754_zero false)
  /\ parse_time_to_seconds Sample.cpython (JStr Sample.huge_minutes)
     = throw OverflowError "int too large to convert to float"
  /\ invalid_time_format
       (parse_time_to_seconds Sample.cpython (JStr Sample.huge_minutes))
     = false
  /\ (forall f,
         parse_time_to_seconds Sample.cpython (JStr Sample.huge_minutes)
         <> Return f)
  /\ parse_time_to_seconds Sample.cpython (JStr "1e400")
     = Return (S754_infinity false).
Proof.
  assert (H : parse_time_to_seconds Sample.cpython (JStr Sample.huge_minutes)
              = throw OverflowError "int too large to convert to float")
    by (vm_compute; reflexivity).
  do 4 (split; [vm_compute; reflexivity|]).
  split; [now rewrite H|].
  split; [|vm_compute; reflexivity].
  intros f. rewrite H. discriminate.
Qed.

(** X18 on three texts: ["1:05"] is 65.0, ["0:00:07"] is 7.0 and
    [" 2.5 "] is 2.5. *)
Lemma parse_time_semantics_witness :
  parse_time_to_seconds Sample.cpython (JStr " 2.5 ")
  = Return (S754_finite false 5629499534213120 (-51))
  /\ parse_time_to_seconds Sample.cpython (JStr "1:05")
     = Return (float_lit 65)
  /\ parse_time_to_seconds Sample.cpython (JStr "0:00:07")
     = Return (float_lit 7).
Proof.
  destruct (parse_time_semantics Sample.cpython) as (H1 & H2 & H3 & _).
  split; [|split].
  - apply H1. vm_compute. reflexivity.
  - rewrite (H2 "1:05" (chars "1") (chars "05") 1%Z (float_lit 5));
      vm_compute; reflexivity.
  - rewrite (H3 "0:00:07" (chars "0") (chars "00") (chars "07") 0%Z 0%Z
               (float_lit 7));
      vm_compute; reflexivity.
Defined.

(** ** Only [sys.exit] raises [SystemExit] *)

Section NoExit.

Variable rt : runtime.

Lemma py_getitem_no_exit (v : json) (key : string) (code : Z) :
  py_getitem rt v key <> Raise (SystemExit code).
Proof.
  destruct v; simpl; try discriminate.
  now destruct (find _ d).
Qed.

Lemma py_contains_no_exit (key : string) (v : json) (code : Z) :
  py_contains key v <> Raise (SystemExit code).
Proof. destruct v; discriminate. Qed.

Lemma py_len_no_exit (v : json) (code : Z) :
  py_len v <> Raise (SystemExit code).
Proof. destruct v; discriminate. Qed.

Lemma py_iter_no_exit (v : json) (code : Z) :
  py_iter v <> Raise (SystemExit code).
Proof. destruct v; discriminate. Qed.

Lemma add_int_float_no_exit (n : Z) (x : float) (code : Z) :
  add_int_float n x <> Raise (SystemExit code).
Proof. unfold add_int_float. now destruct (int_add_float n x). Qed.

Lemma try_except_pure_no_exit {A} (body : outcome A) (c : exc_class)
    (handler : exception -> outcome A) (code : Z) :
  body <> Raise (SystemExit code) ->
  (forall e, handler e <> Raise (SystemExit code)) ->
  try_except_pure body c handler <> Raise (SystemExit code).
Proof.
  intros Hb Hh. unfold try_except_pure.
  destruct body as [a|[e|k]]; try assumption.
  destruct (isinstance e c); [apply Hh | assumption].
Qed.

Lemma parse_time_no_exit (v : json) (code : Z) :
  parse_time_to_seconds rt v <> Raise (SystemExit code).
Proof.
  unfold parse_time_to_seconds, float_of_str.
  destruct (str_of rt v) as [written|r] eqn:Hw; cbn [obind].
  2:{ destruct v; simpl in Hw; try discriminate Hw.
      destruct (too_many_digits _ _); inversion Hw. discriminate. }
  destruct (py_float _); [discriminate|].
  unfold throw at 1. rewrite isinstance_ValueError.
  destruct (split _ _) as [|p0 [|p1 [|p2 [|p3 r]]]]; try discriminate.
  - apply try_except_pure_no_exit; [|discriminate].
    unfold int_of_str, float_of_str.
    destruct (py_int _ p0); [|discriminate].
    destruct (py_float p1); [|discriminate].
    apply add_int_float_no_exit.
  - apply try_except_pure_no_exit; [|discriminate].
    unfold int_of_str, float_of_str.
    destruct (py_int _ p0); [|discriminate].
    destruct (py_int _ p1); [|discriminate].
    destruct (py_float p2); [|discriminate].
    apply add_int_float_no_exit.
Qed.

Lemma read_segment_no_exit (seg : json) (code : Z) :
  read_segment rt seg <> Raise (SystemExit code).
Proof.
  unfold read_segment, obind.
  pose proof (py_getitem_no_exit seg "start" code) as H1.
  destruct (py_getitem rt seg "start") as [v1|r]; [|intros Hx; apply H1; congruence].
  pose proof (parse_time_no_exit v1 code) as H2.
  destruct (parse_time_to_seconds rt v1) as [a|r]; [|intros Hx; apply H2; congruence].
  pose proof (py_getitem_no_exit seg "end" code) as H3.
  destruct (py_getitem rt seg "end") as [v2|r]; [|intros Hx; apply H3; congruence].
  pose proof (parse_time_no_exit v2 code) as H4.
  destruct (parse_time_to_seconds rt v2) as [b|r]; [|intros Hx; apply H4; congruence].
  discriminate.
Qed.

End NoExit.
(** ** Printing *)

Section Printing.

Variable W : world.

(** A line without a mark is written on every console. *)
Lemma print_plain (l : line) (s : state) :
  has_mark l = false ->
  print W l s = (Return tt, State (console s ++ [l]) (calls s)).
Proof. intros H. unfold print, unprintable. now rewrite H. Qed.

(** A console that encodes the marks writes every line. *)
Lemma print_encoded (l : line) (s : state) :
  stdout_marks W = None ->
  print W l s = (Return tt, State (console s ++ [l]) (calls s)).
Proof.
  intros H. unfold print, unprintable. rewrite H. now destruct (has_mark l).
Qed.

(** A console that does not encode them refuses every line with a
    mark, and writes nothing of it. *)
Lemma print_refused (message : line -> string) (l : line) (s : state) :
  stdout_marks W = Some message ->
  has_mark l = true ->
  print W l s = (Raise (Exc (Exn UnicodeEncodeError (message l))), s).
Proof. intros H M. unfold print, unprintable. now rewrite M, H. Qed.

(** [print] raises nothing but a [UnicodeEncodeError], makes no call
    and writes at most its line. *)
Lemma print_cases (l : line) (s : state) :
  print W l s = (Return tt, State (console s ++ [l]) (calls s))
  \/ exists e,
       print W l s = (Raise (Exc e), s) /\ exc_cls e = UnicodeEncodeError.
Proof.
  unfold print, unprintable.
  destruct (has_mark l); [|now left].
  destruct (stdout_marks W) as [message|]; [|now left].
  right. now eexists.
Qed.

End Printing.

(** ** The segment executor *)

Section Executor.

Variable rt : runtime.
Variable W : world.

(** [cut_segment] makes its one call on every console, whatever
    happens to its prints. *)
Lemma cut_segment_calls (exe : string) (source : json) (a b : float)
    (out : json) (s : state) :
  calls (snd (cut_segment rt W exe source a b out s))
  = calls s ++ [ffmpeg_call rt exe source a b out].
Proof.
  unfold cut_segment, try_except, bind, print, unprintable, run_subprocess,
    ret, ffmpeg_call.
  simpl.
  destruct (subprocess_run W (calls s) _) as [r | e]; simpl.
  - destruct (Z.eqb (returncode r) 0); simpl;
      destruct (stdout_marks W); reflexivity.
  - destruct (stdout_marks W); reflexivity.
Qed.

Lemma cut_segment_no_exit (exe : string) (source : json) (a b : float)
    (out : json) (s : state) (code : Z) :
  fst (cut_segment rt W exe source a b out s) <> Raise (SystemExit code).
Proof.
  unfold cut_segment, try_except, bind, print, unprintable, run_subprocess,
    ret.
  simpl.
  destruct (subprocess_run W (calls s) _) as [r | e]; simpl.
  - destruct (Z.eqb (returncode r) 0); simpl;
      destruct (stdout_marks W); discriminate.
  - destruct (stdout_marks W); discriminate.
Qed.

Section Encoded.

Hypothesis Encodes : stdout_marks W = None.

Lemma cut_segment_run (exe : string) (source : json) (a b : float)
    (out : json) (s : state) :
  cut_segment rt W exe source a b out s
  = let inv := ffmpeg_call rt exe source a b out in
    match subprocess_run W (calls s) inv with
    | Ran r =>
        if Z.eqb (returncode r) 0
        then (Return true,
              State (console s ++ [PProcessing out a b; PCutCreated out])
                    (calls s ++ [inv]))
        else (Return false,
              State (console s ++ [PProcessing out a b; PCutFailed out;
                                   PCutStderr (stderr r)])
                    (calls s ++ [inv]))
    | Failed e =>
        (Return false,
         State (console s ++ [PProcessing out a b; PCutException e])
               (calls s ++ [inv]))
    end.
Proof.
  unfold cut_segment, try_except, bind, print, unprintable, run_subprocess,
    ret, ffmpeg_call.
  rewrite Encodes. simpl.
  destruct (subprocess_run W (calls s) _) as [r | e]; simpl.
  - destruct (Z.eqb (returncode r) 0); simpl;
      now rewrite <- !app_assoc.
  - now rewrite <- !app_assoc.
Qed.

End Encoded.

Section Refused.

Variable message : line -> string.
Hypothesis Refuses : stdout_marks W = Some message.

(** On such a console [cut_segment] never returns: it makes its call,
    the print of the result is refused, and so is the print of its
    handler. *)
Lemma cut_segment_refused (exe : string) (source : json) (a b : float)
    (out : json) (s : state) :
  exists e,
    cut_segment rt W exe source a b out s
    = (Raise (Exc (Exn UnicodeEncodeError (message (PCutException e)))),
       State (console s ++ [PProcessing out a b])
             (calls s ++ [ffmpeg_call rt exe source a b out])).
Proof.
  unfold cut_segment, try_except, bind, print, unprintable, run_subprocess,
    ret, ffmpeg_call.
  rewrite Refuses. simpl.
  destruct (subprocess_run W (calls s) _) as [r | e]; simpl.
  - destruct (Z.eqb (returncode r) 0); now eexists.
  - now eexists.
Qed.

End Refused.

End Executor.

(** ** The batch orchestrator *)

Section Orchestrator.

Variable rt : runtime.
Variable W : world.

Lemma attempt_run (exe : string) (source seg : json) (sc fc : nat)
    (s : state) :
  attempt rt W exe source seg sc fc s
  = match read_segment rt seg with
    | Raise r => (Raise r, s)
    | Return (a, b) =>
        if float_ge a b
        then match print W (PInvalidRange a b) s with
             | (Return _, s') => (Return (Continue sc (S fc)), s')
             | (Raise r, s') => (Raise r, s')
             end
        else
          match py_getitem rt seg "output" with
          | Raise r => (Raise r, s)
          | Return out =>
              match cut_segment rt W exe source a b out s with
              | (Return true, s') => (Return (FallThrough (S sc) fc), s')
              | (Return false, s') => (Return (FallThrough sc (S fc)), s')
              | (Raise r, s') => (Raise r, s')
              end
          end
    end.
Proof.
  unfold attempt, read_segment, bind, lift, obind.
  destruct (py_getitem rt seg "start") as [v1|r]; [|reflexivity].
  destruct (parse_time_to_seconds rt v1) as [a|r]; [|reflexivity].
  destruct (py_getitem rt seg "end") as [v2|r]; [|reflexivity].
  destruct (parse_time_to_seconds rt v2) as [b|r]; [|reflexivity].
  destruct (float_ge a b).
  - now destruct (print W (PInvalidRange a b) s) as [[[]|r] s'].
  - destruct (py_getitem rt seg "output") as [out|r]; [|reflexivity].
    destruct (cut_segment rt W exe source a b out s) as [[[|]|r] s'];
      reflexivity.
Qed.

(** The [try] statement of the loop makes the call planned for the
    segment and no other, on every console. *)
Lemma attempt_calls (exe : string) (source seg : json) (sc fc : nat)
    (s : state) :
  calls (snd (attempt rt W exe source seg sc fc s))
  = calls s ++ planned_calls rt exe source seg.
Proof.
  rewrite attempt_run. unfold planned_calls.
  destruct (read_segment rt seg) as [[a b]|r]; [|simpl; now rewrite app_nil_r].
  destruct (float_ge a b).
  - destruct (print_cases W (PInvalidRange a b) s) as [E | (e & E & _)];
      rewrite E; simpl; now rewrite app_nil_r.
  - destruct (py_getitem rt seg "output") as [out|r];
      [|simpl; now rewrite app_nil_r].
    rewrite <- (cut_segment_calls rt W exe source a b out s).
    now destruct (cut_segment rt W exe source a b out s) as [[[|]|r] s'].
Qed.

(** The handlers of the loop make no call. *)
Lemma recover_calls (sc fc : nat) (e : exception) (s : state) :
  exists h, recover W sc fc e = Some h /\ calls (snd (h s)) = calls s.
Proof.
  unfold recover.
  destruct (isinstance e ValueError); eexists; (split; [reflexivity|]);
    unfold bind, ret.
  - now destruct (print_cases W (PTimeParseError e) s) as [E | (x & E & _)];
      rewrite E.
  - now destruct (print_cases W (PUnexpected e) s) as [E | (x & E & _)];
      rewrite E.
Qed.

Lemma iteration_calls (exe : string) (source segments : json)
    (total i : nat) (seg : json) (sc fc : nat) (st : state) :
  py_len segments = Return total ->
  calls (snd (iteration rt W exe source segments i seg (sc, fc) st))
  = calls st ++ planned_calls rt exe source seg.
Proof.
  intros Hlen. unfold iteration. unfold bind at 1. unfold lift at 1.
  rewrite Hlen. unfold bind at 1. rewrite print_plain by reflexivity.
  unfold bind at 1, try_except.
  set (s0 := State (console st ++ [PIndex i total]) (calls st)).
  pose proof (attempt_calls exe source seg sc fc s0) as A.
  change (calls s0) with (calls st) in A.
  destruct (attempt rt W exe source seg sc fc s0) as [[after|[e|c]] s1];
    simpl in A.
  - destruct after as [x y|x y]; unfold ret.
    + unfold bind. rewrite print_plain by reflexivity. exact A.
    + exact A.
  - destruct (recover_calls sc fc e s1) as (h & -> & H).
    destruct (h s1) as [[after|r] s2]; simpl in H;
      [|simpl; now rewrite H].
    destruct after as [x y|x y]; unfold ret.
    + unfold bind. rewrite print_plain by reflexivity. simpl.
      now rewrite H.
    + simpl. now rewrite H.
  - exact A.
Qed.

Lemma loop_cons (exe : string) (source segments : json) (i : nat)
    (seg : json) (rest : list json) (counts : nat * nat) (st : state) :
  loop rt W exe source segments i (seg :: rest) counts st
  = match iteration rt W exe source segments i seg counts st with
    | (Return counts', st') =>
        loop rt W exe source segments (S i) rest counts' st'
    | (Raise r, st') => (Raise r, st')
    end.
Proof. reflexivity. Qed.

(** The calls of the loop are the calls planned for the segments it
    got to, in their order. *)
Lemma loop_calls (exe : string) (source segments : json) (total : nat) :
  py_len segments = Return total ->
  forall items i counts st,
  exists n,
    calls (snd (loop rt W exe source segments i items counts st))
    = calls st ++ flat_map (planned_calls rt exe source) (firstn n items).
Proof.
  intros Hlen items.
  induction items as [|seg rest IH]; intros i [sc fc] st.
  - exists 0. simpl. now rewrite app_nil_r.
  - rewrite loop_cons.
    pose proof (iteration_calls exe source segments total i seg sc fc st Hlen)
      as C.
    destruct (iteration rt W exe source segments i seg (sc, fc) st)
      as [[counts'|r] st1]; simpl in C.
    + destruct (IH (S i) counts' st1) as (n & E).
      exists (S n). rewrite E, C. simpl. now rewrite app_assoc.
    + exists 1. simpl. now rewrite app_nil_r.
Qed.

Lemma chars_length (s : string) : List.length (chars s) = String.length s.
Proof. induction s; simpl; [reflexivity | now f_equal]. Qed.

(** What has a [len] can be iterated, over as many items. *)
Lemma py_len_iter (v : json) (n : nat) :
  py_len v = Return n ->
  exists items, py_iter v = Return items /\ List.length items = n.
Proof.
  destruct v; simpl; try discriminate; intros H; inversion H; subst;
    eexists; split; try reflexivity.
  - now rewrite length_map, chars_length.
  - now rewrite length_map.
Qed.

(** [process_segments] once the source has been found. *)
Lemma process_segments_found (config : json) (exe : string) (st : state)
    (source segments : json) (total : nat) (items : list json) :
  py_getitem rt config "source" = Return source ->
  py_getitem rt config "segments" = Return segments ->
  source_exists W source = Return true ->
  py_len segments = Return total ->
  py_iter segments = Return items ->
  process_segments rt W config exe st
  = match loop rt W exe source segments 1 items (0, 0)
            (State (console st ++ [PSource source; PTotal total])
                   (calls st)) with
    | (Return counts, s1) =>
        (Return counts,
         State (console s1
                ++ [PRule; PCompleted (fst counts) (snd counts); PRule])
               (calls s1))
    | (Raise r, s1) => (Raise r, s1)
    end.
Proof.
  intros Hs Hg He Hl Hi.
  unfold process_segments, bind, lift, ret.
  rewrite Hs, Hg, He. cbn [negb].
  rewrite print_plain by reflexivity. rewrite Hl.
  rewrite print_plain by reflexivity. rewrite Hi.
  simpl console. simpl calls. rewrite <- app_assoc. simpl app.
  destruct (loop rt W exe source segments 1 items (0, 0) _)
    as [[counts|r] s1]; [|reflexivity].
  rewrite !print_plain by reflexivity. simpl. now rewrite <- !app_assoc.
Qed.

(** [process_segments] when the source is not found. *)
Lemma process_segments_not_found (config : json) (exe : string)
    (st : state) (source segments : json) :
  py_getitem rt config "source" = Return source ->
  py_getitem rt config "segments" = Return segments ->
  source_exists W source = Return false ->
  process_segments rt W config exe st
  = (Raise (SystemExit 1),
     State (console st ++ [PSourceNotFound source]) (calls st)).
Proof.
  intros Hs Hg He.
  unfold process_segments, bind, lift, sys_exit.
  rewrite Hs, Hg, He. cbn [negb].
  now rewrite print_plain by reflexivity.
Qed.

(** [process_segments] makes no call, or the calls planned for the
    segments it got to, the source having been found. *)
Lemma process_segments_calls (config : json) (exe : string) (st : state) :
  calls (snd (process_segments rt W config exe st)) = calls st
  \/ exists source segments items n,
       py_getitem rt config "source" = Return source
       /\ py_getitem rt config "segments" = Return segments
       /\ source_exists W source = Return true
       /\ py_iter segments = Return items
       /\ calls (snd (process_segments rt W config exe st))
          = calls st
            ++ flat_map (planned_calls rt exe source) (firstn n items).
Proof.
  destruct (py_getitem rt config "source") as [source|r] eqn:Hs;
    [|left; unfold process_segments, bind, lift; now rewrite Hs].
  destruct (py_getitem rt config "segments") as [segments|r] eqn:Hg;
    [|left; unfold process_segments, bind, lift; now rewrite Hs, Hg].
  destruct (source_exists W source) as [[|]|r] eqn:He;
    [| left; now rewrite (process_segments_not_found config exe st source
                            segments Hs Hg He)
     | left; unfold process_segments, bind, lift; now rewrite Hs, Hg, He].
  destruct (py_len segments) as [total|r] eqn:Hl.
  2:{ left. unfold process_segments, bind, lift. rewrite Hs, Hg, He.
      cbn [negb]. rewrite print_plain by reflexivity. now rewrite Hl. }
  destruct (py_len_iter segments total Hl) as (items & Hi & _).
  right. exists source, segments, items.
  destruct (loop_calls exe source segments total Hl items 1 (0, 0)
              (State (console st ++ [PSource source; PTotal total])
                     (calls st)))
    as (n & C).
  exists n. repeat (split; [reflexivity|]).
  rewrite (process_segments_found config exe st source segments total items
             Hs Hg He Hl Hi).
  simpl calls in C. rewrite <- C.
  now destruct (loop rt W exe source segments 1 items (0, 0) _)
    as [[counts|r] s1].
Qed.

End Orchestrator.

(** ** The loop on a console that encodes the marks *)

Section EncodedLoop.

Variable rt : runtime.
Variable W : world.
Hypothesis Encodes : stdout_marks W = None.

(** One iteration, in full. *)
Lemma iteration_run (exe : string) (source segments : json) (total i : nat)
    (seg : json) (sc fc : nat) (st : state) :
  py_len segments = Return total ->
  iteration rt W exe source segments i seg (sc, fc) st
  = let '(r, printed, called) :=
      iteration_effect rt W exe source seg (calls st) sc fc in
    (r, State (console st ++ PIndex i total :: printed)
              (calls st ++ called)).
Proof.
  intros Hlen.
  unfold iteration, iteration_effect. unfold bind at 1. unfold lift at 1.
  rewrite Hlen. unfold bind at 1. rewrite (print_encoded W _ _ Encodes).
  unfold bind at 1, try_except. rewrite attempt_run. simpl calls.
  destruct (read_segment rt seg) as [[a b]|[e|c]].
  - destruct (float_ge a b).
    + rewrite (print_encoded W _ _ Encodes).
      unfold ret. simpl. now rewrite <- !app_assoc, app_nil_r.
    + destruct (py_getitem rt seg "output") as [out|[e|c]].
      * rewrite (cut_segment_run rt W Encodes). unfold ffmpeg_call. simpl.
        destruct (subprocess_run W (calls st) _) as [r|e]; simpl.
        -- destruct (Z.eqb (returncode r) 0); unfold bind, ret;
             rewrite (print_encoded W _ _ Encodes);
             simpl; now rewrite <- !app_assoc.
        -- unfold bind, ret; rewrite (print_encoded W _ _ Encodes);
             simpl; now rewrite <- !app_assoc.
      * unfold recover, recovery_line.
        destruct (isinstance e ValueError); unfold bind, ret;
          rewrite !(print_encoded W _ _ Encodes); simpl;
          now rewrite <- !app_assoc, app_nil_r.
      * simpl. now rewrite app_nil_r.
  - unfold recover, recovery_line.
    destruct (isinstance e ValueError); unfold bind, ret;
      rewrite !(print_encoded W _ _ Encodes); simpl;
      now rewrite <- !app_assoc, app_nil_r.
  - simpl. now rewrite app_nil_r.
Qed.






End EncodedLoop.

(** ** The loop on a console that does not encode the marks *)

Section RefusedLoop.

Variable rt : runtime.
Variable W : world.
Variable message : line -> string.
Hypothesis Refuses : stdout_marks W = Some message.

(** The handlers of the loop: their print is refused. *)
Lemma recover_refused (sc fc : nat) (e : exception) (s : state) :
  match recover W sc fc e with
  | Some h => h s
  | None => (Raise (Exc e), s)
  end
  = (Raise (Exc (Exn UnicodeEncodeError (message (recovery_line e)))), s).
Proof.
  unfold recover, recovery_line.
  destruct (isinstance e ValueError); unfold bind;
    now rewrite (print_refused W message _ _ Refuses) by reflexivity.
Qed.

(** No iteration returns: whatever the [try] statement does ends in a
    print with a mark, the handler that catches the
    [UnicodeEncodeError] prints a mark too, and its exception leaves
    the loop.  The header and at most the line of the call are on the
    console, and the call planned for the segment has been made. *)
Lemma iteration_refused (exe : string) (source segments : json)
    (total i : nat) (seg : json) (sc fc : nat) (st : state) :
  py_len segments = Return total ->
  exists e printed,
    iteration rt W exe source segments i seg (sc, fc) st
    = (Raise (Exc (Exn UnicodeEncodeError (message (recovery_line e)))),
       State (console st ++ PIndex i total :: printed)
             (calls st ++ planned_calls rt exe source seg))
    /\ (printed = [] \/ exists out a b, printed = [PProcessing out a b]).
Proof.
  intros Hlen.
  unfold iteration, planned_calls. unfold bind at 1. unfold lift at 1.
  rewrite Hlen. unfold bind at 1. rewrite print_plain by reflexivity.
  unfold bind at 1, try_except. rewrite attempt_run. simpl calls.
  pose proof (read_segment_no_exit rt seg) as N1.
  pose proof (py_getitem_no_exit rt seg "output") as N2.
  destruct (read_segment rt seg) as [[a b]|[e|c]];
    [| |now destruct (N1 c)].
  - destruct (float_ge a b).
    + rewrite (print_refused W message _ _ Refuses) by reflexivity.
      rewrite recover_refused. exists (Exn UnicodeEncodeError
                                        (message (PInvalidRange a b))), [].
      rewrite app_nil_r. split; [reflexivity | now left].
    + destruct (py_getitem rt seg "output") as [out|[e|c]];
        [| |now destruct (N2 c)].
      * destruct (cut_segment_refused rt W message Refuses exe source a b
                    out (State (console st ++ [PIndex i total]) (calls st)))
          as (e & ->).
        rewrite recover_refused. eexists. exists [PProcessing out a b].
        simpl. rewrite <- app_assoc. split; [reflexivity|].
        right. now exists out, a, b.
      * rewrite recover_refused. exists e, [].
        rewrite app_nil_r. split; [reflexivity | now left].
  - rewrite recover_refused. exists e, [].
    rewrite app_nil_r. split; [reflexivity | now left].
Qed.

(** [process_segments] past the pre-flight check: the first iteration
    ends it. *)
Lemma process_segments_refused (config : json) (exe : string) (st : state)
    (source seg : json) (rest : list json) :
  py_getitem rt config "source" = Return source ->
  py_getitem rt config "segments" = Return (JList (seg :: rest)) ->
  source_exists W source = Return true ->
  exists e printed,
    process_segments rt W config exe st
    = (Raise (Exc (Exn UnicodeEncodeError (message (recovery_line e)))),
       State (console st
              ++ [PSource source; PTotal (S (List.length rest));
                  PIndex 1 (S (List.length rest))] ++ printed)
             (calls st ++ planned_calls rt exe source seg))
    /\ (printed = [] \/ exists out a b, printed = [PProcessing out a b]).
Proof.
  intros Hs Hg He.
  rewrite (process_segments_found rt W config exe st source
             (JList (seg :: rest)) (S (List.length rest)) (seg :: rest)
             Hs Hg He eq_refl eq_refl).
  rewrite loop_cons.
  destruct (iteration_refused exe source (JList (seg :: rest))
              (S (List.length rest)) 1 seg 0 0
              (State (console st ++ [PSource source;
                                     PTotal (S (List.length rest))])
                     (calls st)) eq_refl)
    as (e & printed & -> & P).
  exists e, printed. simpl. rewrite <- app_assoc. now split.
Qed.

End RefusedLoop.

(** ** The calls of a batch and the argument template *)

Section Batch.

Variable rt : runtime.
Variable W : world.

Lemma read_segment_intro (seg v1 v2 : json) (a b : float) :
  py_getitem rt seg "start" = Return v1 ->
  parse_time_to_seconds rt v1 = Return a ->
  py_getitem rt seg "end" = Return v2 ->
  parse_time_to_seconds rt v2 = Return b ->
  read_segment rt seg = Return (a, b).
Proof.
  intros H1 H2 H3 H4. unfold read_segment, obind.
  now rewrite H1, H2, H3, H4.
Qed.

Lemma planned_call_of_segment (exe : string) (source seg : json)
    (inv : invocation) :
  In inv (planned_calls rt exe source seg) ->
  segment_call rt exe source seg inv.
Proof.
  unfold planned_calls, segment_call.
  destruct (read_segment rt seg) as [[a b]|r]; [|intros []].
  destruct (float_ge a b); [intros []|].
  destruct (py_getitem rt seg "output") as [out|r]; [|intros []].
  intros [<- | []]. now exists a, b, out.
Qed.

Lemma planned_calls_shape (exe : string) (source seg : json)
    (inv : invocation) :
  In inv (planned_calls rt exe source seg) ->
  exists a b out,
    inv = Invocation (ffmpeg_command rt exe source a b out) PIPE PIPE true
    /\ float_ge a b = false.
Proof.
  unfold planned_calls.
  destruct (read_segment rt seg) as [[a b]|r]; [|intros []].
  destruct (float_ge a b) eqn:G; [intros []|].
  destruct (py_getitem rt seg "output") as [out|r]; [|intros []].
  intros [<- | []]. now exists a, b, out.
Qed.

Lemma In_firstn {A} (n : nat) (l : list A) (x : A) :
  In x (firstn n l) -> In x l.
Proof.
  revert l. induction n as [|n IH]; intros [|y l]; simpl; try tauto.
  intros [H | H]; [now left | right; now apply IH].
Qed.

(** C9: the call [cut_segment] makes has exactly the arguments: the
    binary, [-ss] and the start, [-to] and the end, [-i] and the
    source, [-map_metadata -1], [-vn], [-c copy], [-y], the output, in
    that order, with standard output and standard error captured; and
    every call made by [process_segments] is that call for one of the
    segments, with its parsed offsets and its output. *)
Theorem ffmpeg_argument_template (exe : string) :
  (forall source a b out s,
      calls (snd (cut_segment rt W exe source a b out s))
      = calls s ++
        [ Invocation
            [ JStr exe;
              JStr "-ss"; JStr (py_str rt (JFloat a));
              JStr "-to"; JStr (py_str rt (JFloat b));
              JStr "-i"; source;
              JStr "-map_metadata"; JStr "-1";
              JStr "-vn";
              JStr "-c"; JStr "copy";
              JStr "-y";
              out ]
            PIPE PIPE true ])
  /\ (forall config st,
         exists called,
           calls (snd (process_segments rt W config exe st))
           = calls st ++ called
           /\ Forall (fun inv =>
                        exists source items seg,
                          py_getitem rt config "source" = Return source
                          /\ obind (py_getitem rt config "segments") py_iter
                             = Return items
                          /\ In seg items
                          /\ segment_call rt exe source seg inv) called).
Proof.
  split.
  - intros source a b out s. now rewrite cut_segment_calls.
  - intros config st.
    destruct (process_segments_calls rt W config exe st)
      as [E | (source & segments & items & n & Hs & Hg & He & Hi & E)].
    + exists []. rewrite app_nil_r. now split.
    + exists (flat_map (planned_calls rt exe source) (firstn n items)).
      split; [exact E|]. apply Forall_forall. intros inv Hin.
      apply in_flat_map in Hin as (seg & Hseg & Hin).
      exists source, items, seg. split; [exact Hs|].
      split; [now rewrite Hg|]. split; [exact (In_firstn _ _ _ Hseg)|].
      now apply planned_call_of_segment.
Qed.

End Batch.

(** ** The configuration loader *)

Section Loader.

Variable rt : runtime.
Variable W : world.

Lemma check_segments_no_exit (items : list json) (i : nat) (code : Z) :
  check_segments i items <> Raise (SystemExit code).
Proof.
  revert i. induction items as [|x rest IH]; intros i; simpl;
    [discriminate|].
  pose proof (py_contains_no_exit "start" x) as N1.
  pose proof (py_contains_no_exit "end" x) as N2.
  pose proof (py_contains_no_exit "output" x) as N3.
  destruct (py_contains "start" x) as [[|]|[e|c]]; try discriminate;
    [|now destruct (N1 c)].
  destruct (py_contains "end" x) as [[|]|[e|c]]; try discriminate;
    [|now destruct (N2 c)].
  destruct (py_contains "output" x) as [[|]|[e|c]]; try discriminate;
    [|now destruct (N3 c)].
  simpl. apply IH.
Qed.

Lemma validate_config_no_exit (config : json) (code : Z) :
  validate_config rt config <> Raise (SystemExit code).
Proof.
  unfold validate_config.
  pose proof (py_contains_no_exit "source" config) as N1.
  pose proof (py_contains_no_exit "segments" config) as N2.
  destruct (py_contains "source" config) as [[|]|[e|c]]; try discriminate;
    [|now destruct (N1 c)].
  destruct (py_contains "segments" config) as [[|]|[e|c]]; try discriminate;
    [|now destruct (N2 c)].
  simpl.
  pose proof (py_getitem_no_exit rt config "segments" code) as N.
  destruct (py_getitem rt config "segments") as [segments|r];
    [|simpl; intros Hx; apply N; congruence].
  destruct segments as [| | | | |l|]; simpl; try discriminate.
  destruct (Nat.eqb (List.length l) 0); [discriminate|].
  pose proof (check_segments_no_exit l 0 code) as N'.
  destruct (check_segments 0 l) as [[]|r]; [discriminate|].
  simpl. intros Hx; apply N'; congruence.
Qed.

Lemma load_config_no_exit (path : string) (code : Z) :
  load_config rt W path <> Raise (SystemExit code).
Proof.
  unfold load_config.
  destruct (path_exists W path); [|discriminate]. simpl.
  destruct (open_json W path) as [e|config]; [discriminate|].
  simpl. apply validate_config_no_exit.
Qed.

Lemma get_ffmpeg_executable_no_exit (code : Z) :
  get_ffmpeg_executable W <> Raise (SystemExit code).
Proof.
  unfold get_ffmpeg_executable.
  destruct (imageio_ffmpeg W) as [[e|exe]|]; try discriminate.
  simpl. now destruct (String.eqb exe EmptyString).
Qed.

(** The [except] clauses of [main]: every one prints a line and leaves
    with status 1. *)
Lemma main_handlers (e : exception) (s : state) :
  match
    (if isinstance e FileNotFoundError then
       Some (print W (PError e);; sys_exit 1)%py
     else if isinstance e JSONDecodeError then
       Some (print W (PErrorJSON e);; sys_exit 1)%py
     else if isinstance e ValueError then
       Some (print W (PError e);; sys_exit 1)%py
     else if isinstance e ImportError then
       Some (print W (PError e);; sys_exit 1)%py
     else
       Some (print W (PErrorUnexpected e);; sys_exit 1)%py)
  with
  | Some h => h s
  | None => (Raise (Exc e), s)
  end
  = (@Raise unit (SystemExit 1),
     State (console s ++ [main_error_line e]) (calls s)).
Proof.
  unfold main_error_line.
  destruct (isinstance e FileNotFoundError); [reflexivity|].
  destruct (isinstance e JSONDecodeError); [reflexivity|].
  destruct (isinstance e ValueError); [reflexivity|].
  destruct (isinstance e ImportError); reflexivity.
Qed.

(** [main] when the configuration does not load. *)
Lemma main_load_fails (a0 path : string) (e : exception) :
  argv W = [a0; path] ->
  load_config rt W path = Raise (Exc e) ->
  main rt W initial
  = (Raise (SystemExit 1), State [PLoading; main_error_line e] []).
Proof.
  intros Ha Hl. unfold main. rewrite Ha. simpl.
  unfold try_except, bind at 1. unfold print at 1. simpl.
  unfold bind at 1, lift at 1. rewrite Hl.
  now rewrite main_handlers.
Qed.

(** [main] when the FFmpeg binary is not found. *)
Lemma main_ffmpeg_fails (a0 path : string) (config : json) (e : exception) :
  argv W = [a0; path] ->
  load_config rt W path = Return config ->
  get_ffmpeg_executable W = Raise (Exc e) ->
  main rt W initial
  = (Raise (SystemExit 1),
     State [PLoading; PGetting; main_error_line e] []).
Proof.
  intros Ha Hl Hf. unfold main. rewrite Ha. simpl.
  unfold try_except, bind at 1. unfold print at 1. simpl.
  unfold bind at 1, lift at 1. rewrite Hl.
  unfold bind at 1. unfold print at 1. simpl.
  unfold bind at 1, lift at 1. rewrite Hf.
  now rewrite main_handlers.
Qed.

(** [main] when both are there: it runs [process_segments]. *)
Lemma main_processes (a0 path : string) (config : json) (exe : string) :
  argv W = [a0; path] ->
  load_config rt W path = Return config ->
  get_ffmpeg_executable W = Return exe ->
  main rt W initial
  = match process_segments rt W config exe
            (State [PLoading; PGetting; PFFmpeg exe] []) with
    | (Return _, s) => (Return tt, s)
    | (Raise (Exc e), s) =>
        (Raise (SystemExit 1),
         State (console s ++ [main_error_line e]) (calls s))
    | (Raise (SystemExit code), s) => (Raise (SystemExit code), s)
    end.
Proof.
  intros Ha Hl Hf. unfold main. rewrite Ha. simpl.
  unfold try_except, bind at 1. unfold print at 1. simpl.
  unfold bind at 1, lift at 1. rewrite Hl.
  unfold bind at 1. unfold print at 1. simpl.
  unfold bind at 1, lift at 1. rewrite Hf.
  unfold bind at 1. unfold print at 1. simpl.
  unfold bind at 1.
  destruct (process_segments rt W config exe _) as [[counts|[e|code]] s];
    [reflexivity | | reflexivity].
  now rewrite main_handlers.
Qed.


End Loader.

(** ** Whole runs *)

Section Runs.

Variable rt : runtime.
Variable W : world.

Lemma main_error_line_not_header (e : exception) :
  is_header (main_error_line e) = false.
Proof.
  unfold main_error_line.
  destruct (isinstance e FileNotFoundError); [reflexivity|].
  destruct (isinstance e JSONDecodeError); [reflexivity|].
  destruct (isinstance e ValueError); [reflexivity|].
  destruct (isinstance e ImportError); reflexivity.
Qed.

(** A run whose configuration does not load ends with status 1 before
    any segment is attempted and any call is made. *)
Lemma run_load_fails (a0 path : string) (r : raised) :
  argv W = [a0; path] ->
  load_config rt W path = Raise r ->
  fst (run rt W) = 1%Z
  /\ calls (snd (run rt W)) = []
  /\ no_segment_attempted (snd (run rt W)) = true.
Proof.
  intros Ha Hl. destruct r as [e|code];
    [|now destruct (load_config_no_exit rt W path code)].
  unfold run. rewrite (main_load_fails rt W a0 path e Ha Hl).
  unfold no_segment_attempted. simpl.
  now rewrite main_error_line_not_header.
Qed.

Lemma run_usage :
  List.length (argv W) <> 2 -> run rt W = (1%Z, State [PUsage] []).
Proof.
  intros H. unfold run, main.
  destruct (Nat.eqb (List.length (argv W)) 2) eqn:E.
  - apply Nat.eqb_eq in E. contradiction.
  - reflexivity.
Qed.

(** A run makes no call, or the calls planned for the segments it
    got to, with the binary the locator returned and a source that was
    found. *)
Lemma run_calls_planned :
  calls (snd (run rt W)) = []
  \/ exists a0 path config exe source segments items n,
       argv W = [a0; path]
       /\ load_config rt W path = Return config
       /\ get_ffmpeg_executable W = Return exe
       /\ py_getitem rt config "source" = Return source
       /\ py_getitem rt config "segments" = Return segments
       /\ source_exists W source = Return true
       /\ py_iter segments = Return items
       /\ calls (snd (run rt W))
          = flat_map (planned_calls rt exe source) (firstn n items).
Proof.
  destruct (argv W) as [|a0 [|path [|x r]]] eqn:Ha;
    try (left; rewrite run_usage by (rewrite Ha; simpl; lia); reflexivity).
  pose proof (load_config_no_exit rt W path) as N1.
  destruct (load_config rt W path) as [config|[e|c]] eqn:Hl;
    [| |now destruct (N1 c)].
  2:{ left. unfold run. now rewrite (main_load_fails rt W a0 path e Ha Hl). }
  pose proof (get_ffmpeg_executable_no_exit W) as N2.
  destruct (get_ffmpeg_executable W) as [exe|[e|c]] eqn:Hf;
    [| |now destruct (N2 c)].
  2:{ left. unfold run.
      now rewrite (main_ffmpeg_fails rt W a0 path config e Ha Hl Hf). }
  unfold run. rewrite (main_processes rt W a0 path config exe Ha Hl Hf).
  destruct (process_segments_calls rt W config exe
              (State [PLoading; PGetting; PFFmpeg exe] []))
    as [E | (source & segments & items & n & Hs & Hg & He & Hi & E)];
    cbn [calls app] in E.
  - left.
    now destruct (process_segments rt W config exe _) as [[x|[e|c]] s].
  - right. exists a0, path, config, exe, source, segments, items, n.
    repeat (split; [reflexivity || assumption|]).
    rewrite <- E.
    now destruct (process_segments rt W config exe _) as [[x|[e|c]] s].
Qed.

(** C6: when the configuration loads and its source path does not
    exist, the run ends with status 1, no segment is attempted and
    [subprocess.run] is never called. *)
Theorem missing_source_aborts (a0 path : string) (config source : json) :
  argv W = [a0; path] ->
  load_config rt W path = Return config ->
  py_getitem rt config "source" = Return source ->
  source_exists W source = Return false ->
  fst (run rt W) = 1%Z
  /\ calls (snd (run rt W)) = []
  /\ no_segment_attempted (snd (run rt W)) = true.
Proof.
  intros Ha Hl Hs He. unfold run, no_segment_attempted.
  pose proof (get_ffmpeg_executable_no_exit W) as N.
  destruct (get_ffmpeg_executable W) as [exe|[e|code]] eqn:Hf;
    [| |now destruct (N code)].
  - rewrite (main_processes rt W a0 path config exe Ha Hl Hf).
    unfold process_segments, bind, lift, print, sys_exit. rewrite Hs.
    pose proof (py_getitem_no_exit rt config "segments") as N'.
    destruct (py_getitem rt config "segments") as [segments|[e|code]];
      [| |now destruct (N' code)].
    + rewrite He. simpl. now repeat split.
    + simpl. now rewrite main_error_line_not_header.
  - rewrite (main_ffmpeg_fails rt W a0 path config e Ha Hl Hf). simpl.
    now rewrite main_error_line_not_header.
Qed.



(** X11: every call a run makes uses the binary the FFmpeg locator
    returned, which is not the empty path, reads a source that is a path
    found to exist before the loop began, and has a start that is not
    greater than or equal to its end. *)
Theorem run_calls_are_safe (inv : invocation) :
  In inv (calls (snd (run rt W))) ->
  exists exe p a b out,
    imageio_ffmpeg W = Some (inr exe)
    /\ exe <> EmptyString
    /\ path_exists W p = true
    /\ float_ge a b = false
    /\ inv = Invocation (ffmpeg_command rt exe (JStr p) a b out)
                        PIPE PIPE true.
Proof.
  destruct run_calls_planned
    as [E | (a0 & path & config & exe & source & segments & items & n
             & Ha & Hl & Hf & Hs & Hg & He & Hi & E)];
    rewrite E; [intros []|].
  intros Hin. apply in_flat_map in Hin as (seg & _ & Hin).
  destruct (planned_calls_shape rt exe source seg inv Hin)
    as (a & b & out & -> & G).
  destruct source as [| | | |p| |]; try discriminate He.
  simpl in He. exists exe, p, a, b, out.
  unfold get_ffmpeg_executable in Hf.
  destruct (imageio_ffmpeg W) as [[e|x]|]; try discriminate Hf.
  simpl in Hf. destruct (String.eqb x EmptyString) eqn:Ex;
    [discriminate|].
  inversion Hf; subst x. apply String.eqb_neq in Ex.
  repeat split; try assumption. now inversion He.
Qed.

End Runs.

(** ** Batches on a console that encodes the marks *)

Section EncodedBatch.

Variable rt : runtime.
Variable W : world.
Hypothesis Encodes : stdout_marks W = None.

(** X14: on a console that encodes the marks, [cut_segment] returns
    to its caller for every input: with [True] when the external binary
    exits with status 0; with [False] and the captured error text
    reported when it exits with another status; with [False] and the
    exception reported when the call could not be launched. *)
Theorem cut_segment_total (exe : string) (source : json) (a b : float)
    (out : json) (s : state) :
  exists ok s',
    cut_segment rt W exe source a b out s = (Return ok, s')
    /\ match subprocess_run W (calls s)
               (Invocation (ffmpeg_command rt exe source a b out)
                           PIPE PIPE true) with
       | Ran r =>
           ok = Z.eqb (returncode r) 0
           /\ console s'
              = console s ++
                (if Z.eqb (returncode r) 0
                 then [PProcessing out a b; PCutCreated out]
                 else [PProcessing out a b; PCutFailed out;
                       PCutStderr (stderr r)])
       | Failed e =>
           ok = false
           /\ console s'
              = console s ++ [PProcessing out a b; PCutException e]
       end.
Proof.
  rewrite (cut_segment_run rt W Encodes). unfold ffmpeg_call. simpl.
  destruct (subprocess_run W (calls s) _) as [r | e].
  - destruct (Z.eqb (returncode r) 0); eauto.
  - eauto.
Qed.

(** X15: on a console that encodes the marks, a segment whose parsed
    start is greater than or equal to its parsed end is counted as a
    failure and reported as an invalid range, the external binary is
    not called for it, and the loop goes on with the next segment. *)
Theorem invalid_range_rejected (exe : string) (source segments : json)
    (total i : nat) (seg : json) (rest : list json) (sc fc : nat)
    (st : state) (v1 v2 : json) (a b : float) :
  py_len segments = Return total ->
  py_getitem rt seg "start" = Return v1 ->
  parse_time_to_seconds rt v1 = Return a ->
  py_getitem rt seg "end" = Return v2 ->
  parse_time_to_seconds rt v2 = Return b ->
  float_ge a b = true ->
  let st' := State (console st ++ [PIndex i total; PInvalidRange a b])
                   (calls st) in
  iteration rt W exe source segments i seg (sc, fc) st
  = (Return (sc, S fc), st')
  /\ loop rt W exe source segments i (seg :: rest) (sc, fc) st
     = loop rt W exe source segments (S i) rest (sc, S fc) st'.
Proof.
  intros Hlen H1 H2 H3 H4 Hge st'.
  assert (E : iteration rt W exe source segments i seg (sc, fc) st
              = (Return (sc, S fc), st')).
  { rewrite (iteration_run rt W Encodes _ _ _ _ _ _ _ _ _ Hlen).
    unfold iteration_effect.
    rewrite (read_segment_intro rt _ _ _ _ _ H1 H2 H3 H4), Hge.
    unfold st'. now rewrite app_nil_r. }
  split; [exact E|]. now rewrite loop_cons, E.
Qed.















(** X4: on a console that encodes the marks, a segment entry that is
    not a JSON object (a string or a list that slipped through the
    membership tests of [load_config], or any other value) is counted
    as one failure with the line for unexpected errors, carrying a
    [TypeError]; the external binary is not called and the loop goes
    on. *)
Theorem non_object_entry_fails (exe : string) (source segments : json)
    (total i : nat) (seg : json) (rest : list json) (sc fc : nat)
    (st : state) :
  py_len segments = Return total ->
  is_dict seg = false ->
  exists e,
    exc_cls e = TypeError
    /\ iteration rt W exe source segments i seg (sc, fc) st
       = (Return (sc, S fc),
          State (console st ++ [PIndex i total; PUnexpected e; PBlank])
                (calls st))
    /\ loop rt W exe source segments i (seg :: rest) (sc, fc) st
       = loop rt W exe source segments (S i) rest (sc, S fc)
           (State (console st ++ [PIndex i total; PUnexpected e; PBlank])
                  (calls st)).
Proof.
  intros Hlen Hd.
  assert (G : exists msg,
             py_getitem rt seg "start" = throw TypeError msg)
    by (destruct seg; try discriminate Hd; simpl; eauto).
  destruct G as (msg & G). exists (Exn TypeError msg).
  assert (E : iteration rt W exe source segments i seg (sc, fc) st
              = (Return (sc, S fc),
                 State (console st ++ [PIndex i total;
                                       PUnexpected (Exn TypeError msg);
                                       PBlank])
                       (calls st))).
  { rewrite (iteration_run rt W Encodes _ _ _ _ _ _ _ _ _ Hlen).
    unfold iteration_effect, read_segment, obind. rewrite G.
    unfold throw. simpl. now rewrite app_nil_r. }
  split; [reflexivity|]. split; [exact E|]. now rewrite loop_cons, E.
Qed.

Lemma float_ge_refl (a : float) : is_nan a = false -> float_ge a a = true.
Proof.
  unfold float_ge, SFleb, SFcompare.
  destruct a as [s|s|  |s m e]; try discriminate; intros _.
  - reflexivity.
  - now destruct s.
  - rewrite Z.compare_refl, Pos.compare_cont_refl. now destruct s.
Qed.

(** X6: on a console that encodes the marks, a segment whose start
    and end parse to the same offset, not a NaN, is rejected as an
    invalid range: an empty range is never handed to the external
    binary. *)
Theorem empty_range_rejected (exe : string) (source segments : json)
    (total i : nat) (seg : json) (sc fc : nat) (st : state)
    (v1 v2 : json) (a : float) :
  py_len segments = Return total ->
  py_getitem rt seg "start" = Return v1 ->
  parse_time_to_seconds rt v1 = Return a ->
  py_getitem rt seg "end" = Return v2 ->
  parse_time_to_seconds rt v2 = Return a ->
  is_nan a = false ->
  iteration rt W exe source segments i seg (sc, fc) st
  = (Return (sc, S fc),
     State (console st ++ [PIndex i total; PInvalidRange a a]) (calls st)).
Proof.
  intros Hlen H1 H2 H3 H4 Hn.
  rewrite (iteration_run rt W Encodes _ _ _ _ _ _ _ _ _ Hlen).
  unfold iteration_effect.
  rewrite (read_segment_intro _ _ _ _ _ _ H1 H2 H3 H4),
    (float_ge_refl a Hn).
  now rewrite app_nil_r.
Qed.

End EncodedBatch.

(** ** The range check and offsets that are not numbers *)

Section Edges.

Variable rt : runtime.
Variable W : world.



End Edges.

(** ** What [load_config] accepts *)

Section Acceptance.

Variable rt : runtime.
Variable W : world.

Lemma check_segments_complete (items : list json) (i : nat) :
  check_segments i items = Return tt <-> forallb complete items = true.
Proof.
  revert i. induction items as [|x rest IH]; intros i; simpl.
  - tauto.
  - unfold complete, has_field.
    destruct (py_contains "start" x) as [[|]|r]; simpl;
      try (split; discriminate).
    destruct (py_contains "end" x) as [[|]|r]; simpl;
      try (split; discriminate).
    destruct (py_contains "output" x) as [[|]|r]; simpl;
      try (split; discriminate).
    apply IH.
Qed.

Lemma validate_config_well_formed (config : json) :
  validate_config rt config = Return config
  <-> well_formed rt config = true.
Proof.
  unfold validate_config, well_formed, has_field.
  destruct (py_contains "source" config) as [[|]|r]; simpl;
    try (split; discriminate).
  destruct (py_contains "segments" config) as [[|]|r]; simpl;
    try (split; discriminate).
  destruct (py_getitem rt config "segments") as [segments|r]; simpl;
    try (split; discriminate).
  destruct segments as [| | | | |items|]; simpl; try (split; discriminate).
  destruct items as [|x rest]; [simpl; split; discriminate|].
  pose proof (check_segments_complete (x :: rest) 0) as C.
  cbn -[check_segments forallb].
  destruct (check_segments 0 (x :: rest)) as [[]|r]; cbn -[forallb].
  - split; [intros _; now apply C | reflexivity].
  - split; [discriminate|]. intros H. apply C in H. discriminate.
Qed.

Lemma load_config_returns_well_formed (path : string) (config : json) :
  load_config rt W path = Return config -> well_formed rt config = true.
Proof.
  unfold load_config.
  destruct (path_exists W path); simpl; [|discriminate].
  destruct (open_json W path) as [e|doc]; simpl; [discriminate|].
  intros H.
  assert (E : validate_config rt doc = Return doc).
  { unfold validate_config in *.
    destruct (py_contains "source" doc) as [[|]|r]; simpl in *;
      try discriminate.
    destruct (py_contains "segments" doc) as [[|]|r]; simpl in *;
      try discriminate.
    destruct (py_getitem rt doc "segments") as [segments|r];
      simpl in *; try discriminate.
    destruct (is_list segments); simpl in *; try discriminate.
    destruct (py_len segments) as [n|r]; simpl in *; try discriminate.
    destruct (Nat.eqb n 0); try discriminate.
    destruct (py_iter segments) as [items|r]; simpl in *;
      try discriminate.
    destruct (check_segments 0 items) as [[]|r]; simpl in *;
      try discriminate.
    reflexivity. }
  rewrite E in H. inversion H; subst doc.
  now apply validate_config_well_formed.
Qed.

Lemma has_field_dict_lookup (d : list (string * json)) (key : string) :
  has_field key (JDict d) = true ->
  exists v, py_getitem rt (JDict d) key = Return v.
Proof.
  unfold has_field. simpl. intros H.
  destruct (existsb (fun kv => String.eqb (fst kv) key) d) eqn:E;
    [|discriminate].
  apply existsb_exists in E as (kv & Hin & Hk).
  destruct (find (fun kv => String.eqb (fst kv) key) d) as [kv'|] eqn:F.
  - now exists (snd kv').
  - now rewrite (find_none _ _ F kv Hin) in Hk.
Qed.


(** X8: in a configuration [load_config] has returned, the lookups the
    loop makes cannot fail on an object: [config['source']] and
    [config['segments']] are there, [segments] is a non-empty list, and
    every entry that is a JSON object yields its [start], [end] and
    [output]. *)
Theorem loaded_config_has_its_fields (path : string) (config : json) :
  load_config rt W path = Return config ->
  exists source items,
    py_getitem rt config "source" = Return source
    /\ py_getitem rt config "segments" = Return (JList items)
    /\ items <> []
    /\ forall seg,
         In seg items -> is_dict seg = true ->
         exists start_text end_text output,
           py_getitem rt seg "start" = Return start_text
           /\ py_getitem rt seg "end" = Return end_text
           /\ py_getitem rt seg "output" = Return output.
Proof.
  intros H.
  apply load_config_returns_well_formed in H as Hw.
  unfold well_formed in Hw.
  apply andb_true_iff in Hw as [Hw Hc].
  apply andb_true_iff in Hw as [Hs Hg].
  destruct (py_getitem rt config "segments") as [[| | | | |items|]|r] eqn:G;
    try discriminate.
  destruct items as [|x rest]; [discriminate|].
  assert (D : exists d, config = JDict d).
  { destruct config; simpl in G; try discriminate. now eexists. }
  destruct D as (d & ->).
  destruct (has_field_dict_lookup d "source" Hs) as (source & S).
  exists source, (x :: rest).
  split; [exact S|]. split; [reflexivity|]. split; [discriminate|].
  intros seg Hin Hd. rewrite forallb_forall in Hc.
  specialize (Hc seg Hin). unfold complete in Hc.
  apply andb_true_iff in Hc as [Hc Ho].
  apply andb_true_iff in Hc as [Ha Hb].
  destruct seg as [| | | | | |e]; try discriminate Hd.
  destruct (has_field_dict_lookup e "start" Ha) as (v1 & E1).
  destruct (has_field_dict_lookup e "end" Hb) as (v2 & E2).
  destruct (has_field_dict_lookup e "output" Ho) as (v3 & E3).
  now exists v1, v2, v3.
Qed.

End Acceptance.

(** ** Runs on a console that does not encode the marks *)

Section RefusedRuns.

Variable rt : runtime.
Variable W : world.
Variable message : line -> string.
Hypothesis Refuses : stdout_marks W = Some message.

(** A run past the pre-flight check: the first iteration ends it, and
    [main] turns the [UnicodeEncodeError] into exit status 1. *)
Lemma run_refused (a0 path : string) (config : json) (exe : string)
    (source seg : json) (rest : list json) :
  argv W = [a0; path] ->
  load_config rt W path = Return config ->
  get_ffmpeg_executable W = Return exe ->
  py_getitem rt config "source" = Return source ->
  py_getitem rt config "segments" = Return (JList (seg :: rest)) ->
  source_exists W source = Return true ->
  exists e printed,
    run rt W
    = (1%Z,
       State ([PLoading; PGetting; PFFmpeg exe; PSource source;
               PTotal (S (List.length rest));
               PIndex 1 (S (List.length rest))]
              ++ printed
              ++ [PError (Exn UnicodeEncodeError
                              (message (recovery_line e)))])
             (planned_calls rt exe source seg))
    /\ (printed = [] \/ exists out a b, printed = [PProcessing out a b]).
Proof.
  intros Ha Hl Hf Hs Hg He. unfold run.
  rewrite (main_processes rt W a0 path config exe Ha Hl Hf).
  destruct (process_segments_refused rt W message Refuses config exe
              (State [PLoading; PGetting; PFFmpeg exe] []) source seg rest
              Hs Hg He)
    as (e & printed & -> & P).
  exists e, printed. split; [reflexivity | exact P].
Qed.


(** C8: on a console that does not encode the marks U+2713 and U+2717
    [cut_segment] never returns to its caller: it makes its call of the
    external binary, the print of the result (created, or failed) is
    refused with a [UnicodeEncodeError], the handler catches it (or the
    exception of a launch that failed) and its own print is refused
    too, so that a [UnicodeEncodeError] is raised to the caller,
    whatever the external binary did. *)
Theorem cut_segment_raises_on_refused_mark (exe : string) (source : json)
    (a b : float) (out : json) (s : state) :
  cut_segment rt W exe source a b out s
  = (Raise (Exc (Exn UnicodeEncodeError
                   (message
                      (PCutException
                         match subprocess_run W (calls s)
                                 (Invocation
                                    (ffmpeg_command rt exe source a b out)
                                    PIPE PIPE true) with
                         | Ran r =>
                             Exn UnicodeEncodeError
                                 (message
                                    (if Z.eqb (returncode r) 0
                                     then PCutCreated out
                                     else PCutFailed out))
                         | Failed e => e
                         end)))),
     State (console s ++ [PProcessing out a b])
           (calls s ++ [Invocation (ffmpeg_command rt exe source a b out)
                                   PIPE PIPE true])).
Proof.
  unfold cut_segment, try_except, bind, print, unprintable, run_subprocess,
    ret.
  rewrite Refuses. simpl.
  destruct (subprocess_run W (calls s) _) as [r | e]; simpl.
  - now destruct (Z.eqb (returncode r) 0).
  - reflexivity.
Qed.

(** C5: on a console that does not encode the marks, a segment whose
    parsed start is greater than or equal to its parsed end is not
    counted: the print of the invalid-range line is refused inside the
    [try], before the failure counter is touched; the handler for
    [ValueError] catches the [UnicodeEncodeError] and its print is
    refused too; the exception leaves the loop, which does not go on
    with the next segment.  The external binary is not called. *)
Theorem invalid_range_escapes_on_refused_mark (exe : string)
    (source segments : json) (total i : nat) (seg : json)
    (rest : list json) (sc fc : nat) (st : state) (v1 v2 : json)
    (a b : float) :
  py_len segments = Return total ->
  py_getitem rt seg "start" = Return v1 ->
  parse_time_to_seconds rt v1 = Return a ->
  py_getitem rt seg "end" = Return v2 ->
  parse_time_to_seconds rt v2 = Return b ->
  float_ge a b = true ->
  let refused :=
    Exn UnicodeEncodeError
        (message (PTimeParseError
                    (Exn UnicodeEncodeError
                         (message (PInvalidRange a b))))) in
  let st' := State (console st ++ [PIndex i total]) (calls st) in
  iteration rt W exe source segments i seg (sc, fc) st
  = (Raise (Exc refused), st')
  /\ loop rt W exe source segments i (seg :: rest) (sc, fc) st
     = (Raise (Exc refused), st').
Proof.
  intros Hlen H1 H2 H3 H4 Hge refused st'.
  assert (E : iteration rt W exe source segments i seg (sc, fc) st
              = (Raise (Exc refused), st')).
  { unfold iteration. unfold bind at 1. unfold lift at 1.
    rewrite Hlen. unfold bind at 1. rewrite print_plain by reflexivity.
    unfold bind at 1, try_except. rewrite attempt_run.
    rewrite (read_segment_intro rt _ _ _ _ _ H1 H2 H3 H4), Hge.
    rewrite (print_refused W message _ _ Refuses) by reflexivity.
    now rewrite (recover_refused W message Refuses). }
  split; [exact E|]. now rewrite loop_cons, E.
Qed.

(** C1: on a console that does not encode the marks, no failure of a
    segment is isolated, and no success either: every iteration of the
    loop ends with a [UnicodeEncodeError] that leaves the loop, so the
    segments after it are not attempted; an exception raised inside the
    [try] is caught, but the print of the handler is refused before the
    failure is counted; and a run over three segments past the
    pre-flight check ends with exit status 1, after the header of the
    first segment and at most its call, without a summary. *)
Theorem segment_failure_not_isolated :
  (forall exe source segments total i seg rest sc fc st,
      py_len segments = Return total ->
      exists e st',
        iteration rt W exe source segments i seg (sc, fc) st
        = (Raise (Exc e), st')
        /\ exc_cls e = UnicodeEncodeError
        /\ loop rt W exe source segments i (seg :: rest) (sc, fc) st
           = (Raise (Exc e), st')
        /\ filter is_header (console st')
           = filter is_header (console st) ++ [PIndex i total])
  /\ (forall exe source seg sc fc s e s1,
         attempt rt W exe source seg sc fc s = (Raise (Exc e), s1) ->
         try_except (attempt rt W exe source seg sc fc) (recover W sc fc) s
         = (Raise (Exc (Exn UnicodeEncodeError
                          (message (recovery_line e)))), s1))
  /\ (forall a0 path config exe source s1 s2 s3,
         argv W = [a0; path] ->
         load_config rt W path = Return config ->
         get_ffmpeg_executable W = Return exe ->
         py_getitem rt config "source" = Return source ->
         source_exists W source = Return true ->
         py_getitem rt config "segments" = Return (JList [s1; s2; s3]) ->
         fst (run rt W) = 1%Z
         /\ calls (snd (run rt W)) = planned_calls rt exe source s1
         /\ filter is_header (console (snd (run rt W))) = [PIndex 1 3]
         /\ forall sc fc,
              ~ In (PCompleted sc fc) (console (snd (run rt W)))).
Proof.
  split; [|split].
  - intros exe source segments total i seg rest sc fc st Hlen.
    destruct (iteration_refused rt W message Refuses exe source segments
                total i seg sc fc st Hlen) as (e & printed & E & P).
    do 2 eexists. split; [exact E|]. split; [reflexivity|].
    split; [now rewrite loop_cons, E|].
    simpl. rewrite filter_app. simpl.
    now destruct P as [-> | (out & a & b & ->)].
  - intros exe source seg sc fc s e s1 H.
    unfold try_except. rewrite H.
    apply (recover_refused W message Refuses).
  - intros a0 path config exe source s1 s2 s3 Ha Hl Hf Hs He Hg.
    destruct (run_refused a0 path config exe source s1 [s2; s3]
                Ha Hl Hf Hs Hg He) as (e & printed & -> & P).
    simpl. split; [reflexivity|]. split; [reflexivity|].
    destruct P as [-> | (out & a & b & ->)]; simpl.
    + split; [reflexivity|]. intros sc fc H.
      repeat (destruct H as [H | H]; [discriminate H|]). exact H.
    + split; [reflexivity|]. intros sc fc H.
      repeat (destruct H as [H | H]; [discriminate H|]). exact H.
Qed.

(** C10: on a console that does not encode the marks, in a run that
    passes the pre-flight check no iteration adds to a counter, for
    none returns; [process_segments] ends with a [UnicodeEncodeError]
    during the first segment and prints no summary, so that no
    [succeeded + failed] is reported at all. *)
Theorem counters_lost_on_refused_mark (config : json) (exe : string)
    (st : state) (source seg : json) (rest : list json) :
  py_getitem rt config "source" = Return source ->
  py_getitem rt config "segments" = Return (JList (seg :: rest)) ->
  source_exists W source = Return true ->
  (exists e st',
      process_segments rt W config exe st = (Raise (Exc e), st')
      /\ exc_cls e = UnicodeEncodeError
      /\ (forall sc fc,
             In (PCompleted sc fc) (console st') ->
             In (PCompleted sc fc) (console st))
      /\ filter is_header (console st')
         = filter is_header (console st)
           ++ [PIndex 1 (S (List.length rest))])
  /\ (forall i x sc fc s,
         exists e s',
           iteration rt W exe source (JList (seg :: rest)) i x (sc, fc) s
           = (Raise (Exc e), s')).
Proof.
  intros Hs Hg He. split.
  - destruct (process_segments_refused rt W message Refuses config exe st
                source seg rest Hs Hg He) as (e & printed & -> & P).
    do 2 eexists. split; [reflexivity|]. split; [reflexivity|].
    simpl console. split.
    + intros sc fc H. apply in_app_or in H as [H | H]; [exact H|].
      exfalso. destruct P as [-> | (out & a & b & ->)]; simpl in H;
        repeat (destruct H as [H | H]; [discriminate H|]); exact H.
    + rewrite filter_app.
      now destruct P as [-> | (out & a & b & ->)].
  - intros i x sc fc s.
    destruct (iteration_refused rt W message Refuses exe source
                (JList (seg :: rest)) (S (List.length rest)) i x sc fc s
                eq_refl) as (e & printed & E & _).
    do 2 eexists. exact E.
Qed.

End RefusedRuns.

(** ** The ways a run can go *)

Section EncodedRuns.

Variable rt : runtime.
Variable W : world.
Hypothesis Encodes : stdout_marks W = None.




End EncodedRuns.

Section ExitStatus.

Variable rt : runtime.
Variable W : world.


End ExitStatus.

(** ** Offsets given as JSON integers *)

Section IntegerOffsets.

Lemma digit_not_special (c : ascii) :
  is_digit c = true ->
  is_space c = false /\ is_number_space c = false
  /\ Ascii.eqb c "_" = false /\ Ascii.eqb c "-" = false
  /\ Ascii.eqb c "+" = false.
Proof.
  destruct c as [[] [] [] [] [] [] [] []]; intros H;
    try discriminate H; repeat split.
Qed.

Lemma uint_digits (d : Decimal.uint) :
  forallb is_digit (chars (NilEmpty.string_of_uint d)) = true.
Proof. induction d; simpl; auto. Qed.

Lemma uint_value_acc (d : Decimal.uint) (p : positive) :
  fold_left (fun acc c => (10 * acc + digit_value c)%Z)
            (chars (NilEmpty.string_of_uint d)) (Zpos p)
  = Zpos (Pos.of_uint_acc d p).
Proof.
  revert p. induction d; intros p;
    cbn [chars list_ascii_of_string NilEmpty.string_of_uint fold_left
         Pos.of_uint_acc];
    try reflexivity;
    match goal with
    | |- fold_left _ _ ?z = Z.pos (Pos.of_uint_acc _ ?q) =>
        replace z with (Z.pos q);
        [apply IHd
        |match goal with
         | |- context [digit_value ?c] =>
             let v := eval vm_compute in (digit_value c) in
             change (digit_value c) with v
         end; lia]
    end.
Qed.

Lemma uint_value (d : Decimal.uint) :
  digits_value (chars (NilEmpty.string_of_uint d)) = Z.of_N (Pos.of_uint d).
Proof.
  unfold digits_value. induction d;
    cbn [chars list_ascii_of_string NilEmpty.string_of_uint fold_left
         Pos.of_uint Z.of_N];
    try reflexivity;
    match goal with
    | |- fold_left _ _ ?z = Z.pos (Pos.of_uint_acc _ ?q) =>
        replace z with (Z.pos q);
        [apply uint_value_acc
        |match goal with
         | |- context [digit_value ?c] =>
             let v := eval vm_compute in (digit_value c) in
             change (digit_value c) with v
         end; lia]
    | |- fold_left _ _ ?z = _ =>
        replace z with 0%Z by reflexivity; exact IHd
    end.
Qed.

Lemma strip_underscores_digits (l : list ascii) (b : bool) :
  forallb is_digit l = true -> strip_underscores b l = Some l.
Proof.
  revert b. induction l as [|c r IH]; intros b; simpl; [reflexivity|].
  intros H. apply andb_true_iff in H as [Hc Hr].
  destruct (digit_not_special c Hc) as (_ & _ & U & _).
  now rewrite U, (IH _ Hr).
Qed.

Lemma span_digits_all (l : list ascii) :
  forallb is_digit l = true -> span_digits l = (l, []).
Proof.
  induction l as [|c r IH]; simpl; [reflexivity|].
  intros H. apply andb_true_iff in H as [Hc Hr].
  now rewrite Hc, (IH Hr).
Qed.

Lemma clean_strips (blank : ascii -> bool) (l : list ascii) :
  forallb (fun c => negb (blank c)) l = true -> strip_by blank l = l.
Proof.
  intros H. rewrite <- (app_nil_r l) at 1.
  now apply (strip_by_sandwich blank [] l []).
Qed.

(** [float()] of a digit string, with or without a minus sign. *)
Lemma float_of_digits (neg : bool) (l : list ascii) :
  forallb is_digit l = true ->
  l <> [] ->
  py_float (if neg then "-"%char :: l else l)
  = Some (float_of_decimal neg (digits_value l) 0).
Proof.
  intros D N.
  assert (C : forallb (fun c => negb (is_number_space c))
                (if neg then "-"%char :: l else l) = true).
  { assert (forallb (fun c => negb (is_number_space c)) l = true).
    { apply forallb_forall. intros c Hc. rewrite forallb_forall in D.
      destruct (digit_not_special c (D c Hc)) as (_ & -> & _).
      reflexivity. }
    destruct neg; simpl; auto. }
  unfold py_float, number_strip. rewrite (clean_strips _ _ C).
  unfold float_of_text.
  assert (U : strip_underscores false (if neg then "-"%char :: l else l)
              = Some (if neg then "-"%char :: l else l)).
  { destruct neg; simpl; now rewrite strip_underscores_digits. }
  rewrite U.
  assert (S : parse_sign (if neg then "-"%char :: l else l) = (neg, l)).
  { destruct neg; [reflexivity|].
    destruct l as [|c r]; [contradiction|].
    simpl in D. apply andb_true_iff in D as [Hc _].
    destruct (digit_not_special c Hc) as (_ & _ & _ & M & P).
    simpl. now rewrite M, P. }
  rewrite S. unfold parse_decimal. rewrite (span_digits_all l D).
  rewrite app_nil_r.
  destruct l as [|c r]; [contradiction|]. reflexivity.
Qed.

Lemma float_of_decimal_integer (neg : bool) (p : positive) :
  float_of_decimal neg (Zpos p) 0 = binary_round prec emax neg p 0.
Proof.
  unfold float_of_decimal. simpl. now rewrite Pos.mul_1_r.
Qed.

(** [float(str(n))] is the float nearest to [n]. *)
Lemma float_of_int_str (n : Z) :
  py_float (chars (int_str n)) = Some (float_lit n)
  /\ strip (chars (int_str n)) = chars (int_str n).
Proof.
  assert (K : forall p,
             forallb is_digit (chars (NilEmpty.string_of_uint (Pos.to_uint p)))
             = true
             /\ chars (NilEmpty.string_of_uint (Pos.to_uint p)) <> []
             /\ digits_value
                  (chars (NilEmpty.string_of_uint (Pos.to_uint p)))
                = Zpos p).
  { intros p. split; [apply uint_digits|].
    assert (V : digits_value
                  (chars (NilEmpty.string_of_uint (Pos.to_uint p)))
                = Zpos p)
      by (now rewrite uint_value, DecimalPos.Unsigned.of_to).
    split; [|exact V]. intros E. rewrite E in V. discriminate. }
  assert (Sp : forall (l : list ascii) (neg : bool),
             forallb is_digit l = true ->
             strip (if neg then "-"%char :: l else l)
             = (if neg then "-"%char :: l else l)).
  { intros l neg D. apply clean_strips.
    assert (forallb (fun c => negb (is_space c)) l = true).
    { apply forallb_forall. intros c Hc. rewrite forallb_forall in D.
      destruct (digit_not_special c (D c Hc)) as (-> & _).
      reflexivity. }
    destruct neg; simpl; auto. }
  destruct n as [|p|p]; unfold int_str; simpl Z.to_int;
    simpl NilEmpty.string_of_int.
  - split; reflexivity.
  - destruct (K p) as (D & N & V). split.
    + rewrite (float_of_digits false _ D N), V.
      now rewrite float_of_decimal_integer.
    + exact (Sp _ false D).
  - destruct (K p) as (D & N & V). split.
    + change (chars (String "-" (NilEmpty.string_of_uint (Pos.to_uint p))))
        with ("-"%char :: chars (NilEmpty.string_of_uint (Pos.to_uint p))).
      rewrite (float_of_digits true _ D N), V.
      now rewrite float_of_decimal_integer.
    + exact (Sp _ true D).
Qed.

(** X12: an offset given as a JSON integer [n], of a size [str()]
    writes, parses to the float nearest to [n], that is to [n] seconds
    (an infinity beyond the range of floats, never an error); an offset
    given as [null], [true] or [false] is an invalid time format. *)
Theorem integer_offset_is_seconds (rt : runtime) :
  (forall n,
      too_many_digits (int_max_str_digits rt) (decimal_digits n) = false ->
      parse_time_to_seconds rt (JInt n) = Return (float_lit n))
  /\ parse_time_to_seconds rt JNull
     = throw ValueError "Invalid time format: None"
  /\ parse_time_to_seconds rt (JBool true)
     = throw ValueError "Invalid time format: True"
  /\ parse_time_to_seconds rt (JBool false)
     = throw ValueError "Invalid time format: False".
Proof.
  split; [|repeat split].
  intros n H. unfold parse_time_to_seconds, float_of_str.
  cbn [str_of]. rewrite H. cbn [obind py_str].
  destruct (float_of_int_str n) as [F S]. now rewrite S, F.
Qed.


End IntegerOffsets.

(** ** The notations of the specification and the conversions of Python *)

Section Notations.
















Variable rt : runtime.



End Notations.

(** ** Which texts are an invalid time format *)

Section TimeParserFailure.

Variable rt : runtime.



End TimeParserFailure.

(** ** The structural checks on documents that are objects *)

Section Structure.

Import Shape.

Variable rt : runtime.
Variable W : world.

Lemma check_segments_missing (items : list json) :
  forall (i0 i : nat) (seg : json) (field : string),
    nth_error items i = Some seg ->
    (forall j sj, j < i -> nth_error items j = Some sj ->
                  complete sj = true) ->
    first_missing seg = Some field ->
    check_segments i0 items
    = throw ValueError
        ("Segment " ++ nat_str (i0 + i) ++ ": Missing '" ++ field
         ++ "' field").
Proof.
  induction items as [|x rest IH]; intros i0 i seg field Hn Hb Hm.
  - destruct i; discriminate.
  - destruct i as [|i].
    + simpl in Hn. inversion Hn; subst x. rewrite Nat.add_0_r.
      unfold first_missing, lacks_field, has_field in Hm. simpl.
      destruct (py_contains "start" seg) as [[|]|r]; simpl in *;
        try discriminate; [|now inversion Hm].
      destruct (py_contains "end" seg) as [[|]|r]; simpl in *;
        try discriminate; [|now inversion Hm].
      destruct (py_contains "output" seg) as [[|]|r]; simpl in *;
        try discriminate. now inversion Hm.
    + assert (Hx : complete x = true) by (apply (Hb 0 x); [lia | reflexivity]).
      unfold complete, has_field in Hx. simpl.
      destruct (py_contains "start" x) as [[|]|r]; try discriminate.
      destruct (py_contains "end" x) as [[|]|r]; try discriminate.
      destruct (py_contains "output" x) as [[|]|r]; try discriminate.
      simpl. replace (i0 + S i) with (S i0 + i) by lia.
      apply (IH (S i0) i seg field Hn); [|exact Hm].
      intros j sj Hj Hnj. apply (Hb (S j) sj); [lia | exact Hnj].
Qed.

Lemma has_key_contains (k : string) (d : list (string * json)) :
  has_key k d <-> py_contains k (JDict d) = Return true.
Proof.
  unfold has_key. simpl. split.
  - intros H. apply in_map_iff in H as (kv & E & Hin).
    f_equal. apply existsb_exists. exists kv. split; [exact Hin|].
    rewrite E. apply String.eqb_refl.
  - intros H. inversion H as [E]. apply existsb_exists in E as (kv & Hin & E).
    apply String.eqb_eq in E. subst k. now apply in_map.
Qed.

Lemma has_key_field (k : string) (d : list (string * json)) :
  has_key k d -> has_field k (JDict d) = true.
Proof.
  intros H. apply has_key_contains in H. unfold has_field. now rewrite H.
Qed.

Lemma no_key_field (k : string) (d : list (string * json)) :
  ~ has_key k d -> lacks_field k (JDict d) = true.
Proof.
  intros H. unfold lacks_field.
  destruct (py_contains k (JDict d)) as [[|]|r] eqn:E;
    try reflexivity; try discriminate E.
  elim H. now apply has_key_contains.
Qed.

Lemma has_field_key (k : string) (d : list (string * json)) :
  has_field k (JDict d) = true -> has_key k d.
Proof.
  unfold has_field. intros H. apply has_key_contains.
  now destruct (py_contains k (JDict d)) as [[|]|r].
Qed.

Lemma getitem_has_key (k : string) (d : list (string * json)) (v : json) :
  py_getitem rt (JDict d) k = Return v -> has_key k d.
Proof.
  simpl. destruct (find _ d) as [kv|] eqn:F; [|discriminate].
  intros _. apply find_some in F as [Hin E].
  apply String.eqb_eq in E. subst k. now apply in_map.
Qed.

Lemma segment_object_complete (entry : json) :
  segment_object entry -> complete entry = true.
Proof.
  intros (d & -> & H1 & H2 & H3). unfold complete.
  now rewrite !has_key_field.
Qed.

Lemma complete_segment_object (entry : json) :
  is_dict entry = true -> complete entry = true -> segment_object entry.
Proof.
  destruct entry as [| | | | | |d]; try discriminate. intros _ H.
  unfold complete in H.
  apply andb_true_iff in H as [H H3]. apply andb_true_iff in H as [H1 H2].
  exists d. split; [reflexivity|].
  repeat split; now apply has_field_key.
Qed.

Lemma first_absent_missing (d : list (string * json)) (field : string) :
  first_absent d field -> first_missing (JDict d) = Some field.
Proof.
  unfold first_absent, first_missing.
  intros [(-> & N) | [(-> & H1 & N) | (-> & H1 & H2 & N)]].
  - now rewrite (no_key_field _ _ N).
  - assert (L : lacks_field "start" (JDict d) = false).
    { unfold lacks_field. apply has_key_contains in H1. now rewrite H1. }
    now rewrite L, (has_key_field _ _ H1), (no_key_field _ _ N).
  - assert (L1 : lacks_field "start" (JDict d) = false).
    { unfold lacks_field. apply has_key_contains in H1. now rewrite H1. }
    assert (L2 : lacks_field "end" (JDict d) = false).
    { unfold lacks_field. apply has_key_contains in H2. now rewrite H2. }
    now rewrite L1, L2, (has_key_field _ _ H1), (has_key_field _ _ H2),
      (no_key_field _ _ N).
Qed.

(** X17: on a document that is a JSON object, [load_config] fails
    with the [ValueError] naming ['source'] when the object has no key
    [source], naming ['segments'] when it has no key [segments], saying
    that segments must be a list when its value is not one and that it
    cannot be empty when it is the empty list; and when the entry of
    index [i] is an object without one of the keys [start], [end],
    [output], the entries before it being objects with the three keys,
    it fails with the [ValueError] naming the zero-based index [i] and
    the first of the three keys that is absent. *)
Theorem load_config_reports_missing_fields (path : string)
    (d : list (string * json)) :
  path_exists W path = true ->
  open_json W path = inr (JDict d) ->
  (~ has_key "source" d ->
   load_config rt W path
   = throw ValueError "Missing required field: 'source'")
  /\ (has_key "source" d ->
      ~ has_key "segments" d ->
      load_config rt W path
      = throw ValueError "Missing required field: 'segments'")
  /\ (forall segments,
         has_key "source" d ->
         py_getitem rt (JDict d) "segments" = Return segments ->
         is_list segments = false ->
         load_config rt W path
         = throw ValueError "'segments' must be a list")
  /\ (has_key "source" d ->
      py_getitem rt (JDict d) "segments" = Return (JList []) ->
      load_config rt W path
      = throw ValueError "'segments' cannot be empty")
  /\ (forall items i e field,
         has_key "source" d ->
         py_getitem rt (JDict d) "segments" = Return (JList items) ->
         nth_error items i = Some (JDict e) ->
         (forall j entry,
             j < i -> nth_error items j = Some entry ->
             segment_object entry) ->
         first_absent e field ->
         load_config rt W path
         = throw ValueError
             ("Segment " ++ nat_str i ++ ": Missing '" ++ field
              ++ "' field")).
Proof.
  intros He Ho.
  assert (L : load_config rt W path = validate_config rt (JDict d))
    by (unfold load_config; now rewrite He, Ho).
  rewrite L. unfold validate_config.
  split; [|split; [|split; [|split]]].
  - intros N. apply no_key_field in N. unfold lacks_field in N.
    now destruct (py_contains "source" (JDict d)) as [[|]|r].
  - intros H N. apply has_key_contains in H. rewrite H.
    apply no_key_field in N. unfold lacks_field in N. cbn [obind negb].
    now destruct (py_contains "segments" (JDict d)) as [[|]|r].
  - intros segments H Hg Hn.
    pose proof (getitem_has_key _ _ _ Hg) as K.
    apply has_key_contains in H, K. rewrite H, K. cbn [obind negb].
    rewrite Hg. cbn [obind]. now rewrite Hn.
  - intros H Hg.
    pose proof (getitem_has_key _ _ _ Hg) as K.
    apply has_key_contains in H, K. rewrite H, K. cbn [obind negb].
    now rewrite Hg.
  - intros items i e field H Hg Hn Hb Hm.
    pose proof (getitem_has_key _ _ _ Hg) as K.
    apply has_key_contains in H, K. rewrite H, K. cbn [obind negb].
    rewrite Hg. cbn [obind is_list negb py_len py_iter].
    destruct items as [|x rest]; [destruct i; discriminate|].
    cbn [List.length Nat.eqb].
    rewrite (check_segments_missing (x :: rest) 0 i (JDict e) field Hn).
    + reflexivity.
    + intros j sj Hj Hnj. apply segment_object_complete. eauto.
    + now apply first_absent_missing.
Qed.

(** X7: a document that is a JSON object whose [segments] is a list
    of JSON objects is returned by [load_config], unchanged, exactly
    when it has the key [source], the list is not empty and every entry
    has the keys [start], [end] and [output]. *)
Theorem load_config_accepts_objects (path : string)
    (d : list (string * json)) (items : list json) :
  path_exists W path = true ->
  open_json W path = inr (JDict d) ->
  py_getitem rt (JDict d) "segments" = Return (JList items) ->
  (forall entry, In entry items -> is_dict entry = true) ->
  load_config rt W path = Return (JDict d)
  <-> has_key "source" d /\ items <> [] /\ Forall segment_object items.
Proof.
  intros He Ho Hg Hd.
  assert (L : load_config rt W path = validate_config rt (JDict d))
    by (unfold load_config; now rewrite He, Ho).
  rewrite L, (validate_config_well_formed rt (JDict d)).
  unfold well_formed. rewrite Hg.
  pose proof (getitem_has_key _ _ _ Hg) as K.
  rewrite (has_key_field _ _ K), andb_true_r. split.
  - intros H. apply andb_true_iff in H as [Hs Hc].
    split; [now apply has_field_key|].
    destruct items as [|x rest]; [discriminate|].
    split; [discriminate|].
    apply Forall_forall. intros entry Hin.
    rewrite forallb_forall in Hc.
    apply complete_segment_object; auto.
  - intros (Hs & Hn & Hc).
    rewrite (has_key_field _ _ Hs).
    destruct items as [|x rest]; [contradiction|].
    apply forallb_forall. intros entry Hin.
    rewrite Forall_forall in Hc.
    apply segment_object_complete. auto.
Qed.

End Structure.

(** ** The statements on the sample runs *)

(** C1 on the job of three segments, on a console of the [ascii]
    codec: the first segment is cut, its success cannot be printed, and
    the run ends there with status 1. *)
Lemma segment_failure_not_isolated_witness :
  (exists e st',
      iteration Sample.cpython Odd.ascii_office "/opt/ffmpeg" (JStr "in.mp3")
        (JList [Sample.second; Sample.third]) 1 Sample.second (0, 0) initial
      = (Raise (Exc e), st')
      /\ exc_cls e = UnicodeEncodeError
      /\ loop Sample.cpython Odd.ascii_office "/opt/ffmpeg" (JStr "in.mp3")
           (JList [Sample.second; Sample.third]) 1
           [Sample.second; Sample.third] (0, 0) initial
         = (Raise (Exc e), st')
      /\ filter is_header (console st')
         = filter is_header (console initial) ++ [PIndex 1 2])
  /\ try_except
       (attempt Sample.cpython Odd.ascii_office "/opt/ffmpeg" (JStr "in.mp3")
          Sample.second 0 0)
       (recover Odd.ascii_office 0 0) initial
     = (Raise (Exc (Exn UnicodeEncodeError
                      (Sample.ascii_refusal
                         (recovery_line
                            (Exn ValueError "Invalid time format: abc"))))),
        initial)
  /\ fst (run Sample.cpython Odd.ascii_office) = 1%Z
  /\ calls (snd (run Sample.cpython Odd.ascii_office))
     = planned_calls Sample.cpython "/opt/ffmpeg" (JStr "in.mp3") Sample.first
  /\ filter is_header (console (snd (run Sample.cpython Odd.ascii_office)))
     = [PIndex 1 3]
  /\ forall sc fc,
       ~ In (PCompleted sc fc)
            (console (snd (run Sample.cpython Odd.ascii_office))).
Proof.
  destruct (segment_failure_not_isolated Sample.cpython Odd.ascii_office
              Sample.ascii_refusal eq_refl)
    as (H1 & H2 & H3).
  split; [|split].
  - apply (H1 "/opt/ffmpeg" (JStr "in.mp3")
              (JList [Sample.second; Sample.third]) 2 1 Sample.second
              [Sample.third] 0 0 initial).
    reflexivity.
  - apply (H2 "/opt/ffmpeg" (JStr "in.mp3") Sample.second 0 0 initial
              (Exn ValueError "Invalid time format: abc") initial).
    reflexivity.
  - apply (H3 "mp3_cut.py" "job.json" Sample.three_segments "/opt/ffmpeg"
              (JStr "in.mp3") Sample.first Sample.second Sample.third);
      reflexivity.
Defined.

(** C5 on the segment from ["00:10"] to ["00:05"], on a console of
    the [ascii] codec. *)
Lemma invalid_range_escapes_on_refused_mark_witness :
  iteration Sample.cpython Odd.ascii_backwards "/opt/ffmpeg" (JStr "in.mp3")
    (JList [Sample.backwards]) 1 Sample.backwards (0, 0) initial
  = (Raise (Exc (Exn UnicodeEncodeError
                   (Sample.ascii_refusal
                      (PTimeParseError
                         (Exn UnicodeEncodeError
                              (Sample.ascii_refusal
                                 (PInvalidRange (float_lit 10)
                                                (float_lit 5)))))))),
     State [PIndex 1 1] [])
  /\ loop Sample.cpython Odd.ascii_backwards "/opt/ffmpeg" (JStr "in.mp3")
       (JList [Sample.backwards]) 1 [Sample.backwards; Sample.first] (0, 0)
       initial
     = (Raise (Exc (Exn UnicodeEncodeError
                      (Sample.ascii_refusal
                         (PTimeParseError
                            (Exn UnicodeEncodeError
                                 (Sample.ascii_refusal
                                    (PInvalidRange (float_lit 10)
                                                   (float_lit 5)))))))),
        State [PIndex 1 1] []).
Proof.
  apply (invalid_range_escapes_on_refused_mark Sample.cpython
           Odd.ascii_backwards Sample.ascii_refusal eq_refl "/opt/ffmpeg"
           (JStr "in.mp3") (JList [Sample.backwards]) 1 1 Sample.backwards
           [Sample.first] 0 0 initial (JStr "00:10") (JStr "00:05")
           (float_lit 10) (float_lit 5));
    vm_compute; reflexivity.
Defined.

(** C8 on a cut that the external binary completes with status 0, on
    a console of the [ascii] codec. *)
Lemma cut_segment_raises_on_refused_mark_witness :
  cut_segment Sample.cpython Odd.ascii_office "/opt/ffmpeg" (JStr "in.mp3")
    (float_lit 0) (float_lit 10) (JStr "a.mp3") initial
  = (Raise (Exc (Exn UnicodeEncodeError
                   (Sample.ascii_refusal
                      (PCutException
                         (Exn UnicodeEncodeError
                              (Sample.ascii_refusal
                                 (PCutCreated (JStr "a.mp3")))))))),
     State [PProcessing (JStr "a.mp3") (float_lit 0) (float_lit 10)]
           [Invocation
              (ffmpeg_command Sample.cpython "/opt/ffmpeg" (JStr "in.mp3")
                 (float_lit 0) (float_lit 10) (JStr "a.mp3"))
              PIPE PIPE true]).
Proof.
  exact (cut_segment_raises_on_refused_mark Sample.cpython Odd.ascii_office
           Sample.ascii_refusal eq_refl "/opt/ffmpeg" (JStr "in.mp3")
           (float_lit 0) (float_lit 10) (JStr "a.mp3") initial).
Defined.

(** C10 on the job of three segments, on a console of the [ascii]
    codec. *)
Lemma counters_lost_on_refused_mark_witness :
  (exists e st',
      process_segments Sample.cpython Odd.ascii_office Sample.three_segments
        "/opt/ffmpeg" initial = (Raise (Exc e), st')
      /\ exc_cls e = UnicodeEncodeError
      /\ (forall sc fc,
             In (PCompleted sc fc) (console st') ->
             In (PCompleted sc fc) (console initial))
      /\ filter is_header (console st')
         = filter is_header (console initial) ++ [PIndex 1 3])
  /\ (forall i x sc fc s,
         exists e s',
           iteration Sample.cpython Odd.ascii_office "/opt/ffmpeg"
             (JStr "in.mp3")
             (JList [Sample.first; Sample.second; Sample.third])
             i x (sc, fc) s
           = (Raise (Exc e), s')).
Proof.
  apply (counters_lost_on_refused_mark Sample.cpython Odd.ascii_office
           Sample.ascii_refusal eq_refl Sample.three_segments "/opt/ffmpeg"
           initial (JStr "in.mp3") Sample.first
           [Sample.second; Sample.third]);
    reflexivity.
Defined.



(** C4: the checks of [load_config] on a segment entry are membership
    tests, which a text or a list holding the three names passes: the
    document whose only entry is the text ["start end output"] is
    returned by [load_config], its entry fails in the loop with a
    [TypeError] and the run ends with the summary 0 succeeded, 1 failed
    and exit status 0; the entry [null] makes [load_config] fail with a
    [TypeError], not with a missing field. *)
Theorem non_object_entries_pass_load_config :
  load_config Sample.cpython (Sample.reading Odd.text_job) "job.json"
  = Return Odd.text_job
  /\ load_config Sample.cpython (Sample.reading Odd.list_job) "job.json"
     = Return Odd.list_job
  /\ run Sample.cpython (Sample.reading Odd.text_job)
     = (0%Z,
        State [PLoading; PGetting; PFFmpeg "/opt/ffmpeg";
               PSource (JStr "in.mp3"); PTotal 1; PIndex 1 1;
               PUnexpected
                 (Exn TypeError "string indices must be integers, not 'str'");
               PBlank; PRule; PCompleted 0 1; PRule]
              [])
  /\ load_config Sample.cpython (Sample.reading Odd.null_job) "job.json"
     = throw TypeError "argument of type 'NoneType' is not iterable"
  /\ fst (run Sample.cpython (Sample.reading Odd.null_job)) = 1%Z.
Proof. repeat split. Qed.

(** C6 on the job of three segments when [in.mp3] is not there. *)
Lemma missing_source_aborts_witness :
  fst (run Sample.cpython Sample.no_source) = 1%Z
  /\ calls (snd (run Sample.cpython Sample.no_source)) = []
  /\ no_segment_attempted (snd (run Sample.cpython Sample.no_source)) = true.
Proof.
  apply (missing_source_aborts Sample.cpython Sample.no_source
           "mp3_cut.py" "job.json" Sample.three_segments (JStr "in.mp3"));
    reflexivity.
Defined.



(** X15 on the segment from ["00:10"] to ["00:05"]. *)
Lemma invalid_range_rejected_witness :
  iteration Sample.cpython Sample.office "/opt/ffmpeg" (JStr "in.mp3")
    (JList [Sample.backwards]) 1 Sample.backwards (0, 0) initial
  = (Return (0, 1),
     State [PIndex 1 1; PInvalidRange (float_lit 10) (float_lit 5)] [])
  /\ loop Sample.cpython Sample.office "/opt/ffmpeg" (JStr "in.mp3")
       (JList [Sample.backwards]) 1 [Sample.backwards] (0, 0) initial
     = loop Sample.cpython Sample.office "/opt/ffmpeg" (JStr "in.mp3")
         (JList [Sample.backwards]) 2 [] (0, 1)
         (State [PIndex 1 1; PInvalidRange (float_lit 10) (float_lit 5)] []).
Proof.
  apply (invalid_range_rejected Sample.cpython Sample.office eq_refl
           "/opt/ffmpeg"
           (JStr "in.mp3") (JList [Sample.backwards]) 1 1 Sample.backwards []
           0 0 initial (JStr "00:10") (JStr "00:05")
           (float_lit 10) (float_lit 5));
    vm_compute; reflexivity.
Defined.



(** X14 on a cut that the external binary completes with status
    0. *)
Lemma cut_segment_total_witness :
  exists ok s',
    cut_segment Sample.cpython Sample.office "/opt/ffmpeg" (JStr "in.mp3")
      (float_lit 0) (float_lit 10) (JStr "a.mp3") initial = (Return ok, s')
    /\ ok = true
    /\ console s'
       = [PProcessing (JStr "a.mp3") (float_lit 0) (float_lit 10);
          PCutCreated (JStr "a.mp3")].
Proof.
  destruct (cut_segment_total Sample.cpython Sample.office eq_refl
              "/opt/ffmpeg" (JStr "in.mp3") (float_lit 0) (float_lit 10)
              (JStr "a.mp3") initial) as (ok & s' & E & H).
  exists ok, s'. split; [exact E|]. exact H.
Defined.




(** X4 on the text entry. *)
Lemma non_object_entry_fails_witness :
  exists e,
    exc_cls e = TypeError
    /\ iteration Sample.cpython Cases.busy "/opt/ffmpeg" (JStr "in.mp3")
         (JList Cases.five) 2 Cases.text_entry (1, 0) initial
       = (Return (1, 1),
          State ([] ++ [PIndex 2 5; PUnexpected e; PBlank]) [])
    /\ loop Sample.cpython Cases.busy "/opt/ffmpeg" (JStr "in.mp3")
         (JList Cases.five) 2 [Cases.text_entry] (1, 0) initial
       = loop Sample.cpython Cases.busy "/opt/ffmpeg" (JStr "in.mp3")
           (JList Cases.five) 3 [] (1, 1)
           (State ([] ++ [PIndex 2 5; PUnexpected e; PBlank]) []).
Proof.
  apply (non_object_entry_fails Sample.cpython Cases.busy eq_refl
           "/opt/ffmpeg"
           (JStr "in.mp3") (JList Cases.five) 5 2 Cases.text_entry []
           1 0 initial);
    reflexivity.
Defined.


(** X6 on the segment from ["5"] to ["5.0"]. *)
Lemma empty_range_rejected_witness :
  iteration Sample.cpython Sample.office "/opt/ffmpeg" (JStr "in.mp3")
    (JList [Cases.still]) 1 Cases.still (0, 0) initial
  = (Return (0, 1),
     State ([] ++ [PIndex 1 1; PInvalidRange (float_lit 5) (float_lit 5)])
           []).
Proof.
  apply (empty_range_rejected Sample.cpython Sample.office eq_refl
           "/opt/ffmpeg"
           (JStr "in.mp3") (JList [Cases.still]) 1 1 Cases.still 0 0 initial
           (JStr "5") (JStr "5.0") (float_lit 5));
    vm_compute; reflexivity.
Defined.

(** X8 on the job of three segments. *)
Lemma loaded_config_has_its_fields_witness :
  exists source items,
    py_getitem Sample.cpython Sample.three_segments "source" = Return source
    /\ py_getitem Sample.cpython Sample.three_segments "segments"
       = Return (JList items)
    /\ items <> []
    /\ forall seg,
         In seg items -> is_dict seg = true ->
         exists start_text end_text output,
           py_getitem Sample.cpython seg "start" = Return start_text
           /\ py_getitem Sample.cpython seg "end" = Return end_text
           /\ py_getitem Sample.cpython seg "output" = Return output.
Proof.
  apply (loaded_config_has_its_fields Sample.cpython Sample.office
           "job.json" Sample.three_segments).
  reflexivity.
Defined.


(** X11 on the first call of the job of three segments. *)
Lemma run_calls_are_safe_witness :
  exists exe p a b out,
    imageio_ffmpeg Sample.office = Some (inr exe)
    /\ exe <> EmptyString
    /\ path_exists Sample.office p = true
    /\ float_ge a b = false
    /\ ffmpeg_call Sample.cpython "/opt/ffmpeg" (JStr "in.mp3")
         (S754_zero false) (float_lit 10) (JStr "a.mp3")
       = Invocation (ffmpeg_command Sample.cpython exe (JStr p) a b out)
                    PIPE PIPE true.
Proof.
  apply (run_calls_are_safe Sample.cpython Sample.office
           (ffmpeg_call Sample.cpython "/opt/ffmpeg" (JStr "in.mp3")
              (S754_zero false) (float_lit 10) (JStr "a.mp3"))).
  vm_compute. left. reflexivity.
Defined.

(** X12 on the integers 90 and -3. *)
Lemma integer_offset_is_seconds_witness :
  parse_time_to_seconds Sample.cpython (JInt 90) = Return (float_lit 90)
  /\ parse_time_to_seconds Sample.cpython (JInt (-3))
     = Return (float_lit (-3)).
Proof.
  split;
    apply (proj1 (integer_offset_is_seconds Sample.cpython)); reflexivity.
Defined.

(** X7 on the job of three segments, which is returned, and on a job
    whose second entry has no [end], which is not. *)
Lemma load_config_accepts_objects_witness :
  load_config Sample.cpython Sample.office "job.json"
  = Return Sample.three_segments
  /\ load_config Sample.cpython (Sample.reading Sample.second_incomplete)
       "job.json" <> Return Sample.second_incomplete.
Proof.
  split.
  - assert (D : forall entry,
               In entry [Sample.first; Sample.second; Sample.third] ->
               is_dict entry = true).
    { intros entry H. simpl in H.
      destruct H as [<- | [<- | [<- | []]]]; reflexivity. }
    apply (proj2 (load_config_accepts_objects Sample.cpython Sample.office
                    "job.json"
                    [("source", JStr "in.mp3");
                     ("segments",
                      JList [Sample.first; Sample.second; Sample.third])]
                    [Sample.first; Sample.second; Sample.third]
                    eq_refl eq_refl eq_refl D)).
    split; [unfold Shape.has_key; simpl; tauto|].
    split; [discriminate|].
    repeat constructor;
      (eexists; split; [reflexivity|]; unfold Shape.has_key; simpl; tauto).
  - intros H.
    assert (D : forall entry,
               In entry [Sample.first; Sample.segment_without_end] ->
               is_dict entry = true).
    { intros entry H'. simpl in H'.
      destruct H' as [<- | [<- | []]]; reflexivity. }
    apply (proj1 (load_config_accepts_objects Sample.cpython
                    (Sample.reading Sample.second_incomplete) "job.json"
                    [("source", JStr "in.mp3");
                     ("segments",
                      JList [Sample.first; Sample.segment_without_end])]
                    [Sample.first; Sample.segment_without_end]
                    eq_refl eq_refl eq_refl D)) in H.
    destruct H as (_ & _ & H). inversion H as [|x l _ H2]. subst.
    inversion H2 as [|y l' (d & E & _ & K & _) _]. subst.
    inversion E; subst d. unfold Shape.has_key in K. simpl in K.
    destruct K as [K | [K | []]]; discriminate K.
Defined.

(** X17 on one document for each check. *)
Lemma load_config_reports_missing_fields_witness :
  load_config Sample.cpython (Sample.reading Sample.without_source)
    "job.json"
  = throw ValueError "Missing required field: 'source'"
  /\ load_config Sample.cpython (Sample.reading Sample.without_segments)
       "job.json"
     = throw ValueError "Missing required field: 'segments'"
  /\ load_config Sample.cpython (Sample.reading Sample.segments_object)
       "job.json"
     = throw ValueError "'segments' must be a list"
  /\ load_config Sample.cpython (Sample.reading (Sample.job [])) "job.json"
     = throw ValueError "'segments' cannot be empty"
  /\ load_config Sample.cpython (Sample.reading Sample.second_incomplete)
       "job.json"
     = throw ValueError "Segment 1: Missing 'end' field".
Proof.
  split; [|split; [|split; [|split]]].
  - apply (proj1 (load_config_reports_missing_fields Sample.cpython
                    (Sample.reading Sample.without_source) "job.json"
                    [("segments", JList [Sample.first])] eq_refl eq_refl)).
    unfold Shape.has_key. simpl. intros [H | []]. discriminate H.
  - apply (proj1 (proj2 (load_config_reports_missing_fields Sample.cpython
                    (Sample.reading Sample.without_segments) "job.json"
                    [("source", JStr "in.mp3")] eq_refl eq_refl))).
    + unfold Shape.has_key. simpl. tauto.
    + unfold Shape.has_key. simpl. intros [H | []]. discriminate H.
  - apply (proj1 (proj2 (proj2 (load_config_reports_missing_fields
                    Sample.cpython (Sample.reading Sample.segments_object)
                    "job.json"
                    [("source", JStr "in.mp3"); ("segments", JDict [])]
                    eq_refl eq_refl))) (JDict [])).
    + unfold Shape.has_key. simpl. tauto.
    + reflexivity.
    + reflexivity.
  - apply (proj1 (proj2 (proj2 (proj2 (load_config_reports_missing_fields
                    Sample.cpython (Sample.reading (Sample.job []))
                    "job.json"
                    [("source", JStr "in.mp3"); ("segments", JList [])]
                    eq_refl eq_refl))))).
    + unfold Shape.has_key. simpl. tauto.
    + reflexivity.
  - apply (proj2 (proj2 (proj2 (proj2 (load_config_reports_missing_fields
                    Sample.cpython (Sample.reading Sample.second_incomplete)
                    "job.json"
                    [("source", JStr "in.mp3");
                     ("segments",
                      JList [Sample.first; Sample.segment_without_end])]
                    eq_refl eq_refl))))
             [Sample.first; Sample.segment_without_end] 1
             [("start", JStr "0"); ("output", JStr "x.mp3")] "end").
    + unfold Shape.has_key. simpl. tauto.
    + reflexivity.
    + reflexivity.
    + intros [|j] entry Hj Hn; [|lia]. inversion Hn.
      eexists. split; [reflexivity|]. unfold Shape.has_key. simpl. tauto.
    + right. left. split; [reflexivity|]. unfold Shape.has_key. simpl.
      split; [tauto|]. intros [H | [H | []]]; discriminate H.
Defined.



(** The job of five entries, run: two calls, of which the first exits
    with status 0; one success and four failures; exit status 0. *)
Example busy_run :
  fst (run Sample.cpython Cases.busy) = 0%Z
  /\ List.length (calls (snd (run Sample.cpython Cases.busy))) = 2
  /\ In (PCompleted 1 4) (console (snd (run Sample.cpython Cases.busy))).
Proof.
  split; [vm_compute; reflexivity|].
  split; [vm_compute; reflexivity|].
  vm_compute. tauto.
Qed.
